(** * Verification of the grid trading daemon ([run_grid_trading_daemon.py])

    A shallow embedding of [DaemonGridRunner]: the configuration translator
    [create_grid_config], the market-type resolver [detect_market_type], the
    credential and connection bootstrapper [create_exchange_adapter], the
    startup sequence [run], the cleanup sequence [cleanup], the statistics
    reporter [print_statistics] and the signal handler [handle_signal].

    Python values coming out of [yaml.safe_load] are modelled by [pyval];
    exceptions by [exc]; collaborator calls (exchange adapter, coordinator,
    reserve monitor) are external, so their outcomes are inputs of the model
    and each call is recorded in a trace of [event]s. *)

From Stdlib Require Import List String Ascii ZArith NArith Bool Lia.
Import ListNotations.
Set Warnings "-register-all".
Open Scope string_scope.
Open Scope list_scope.

(* ------------------------------------------------------------------ *)
(** ** Strings: the ASCII part of Python's [str] methods *)

Module PyStr.

Definition is_upper_char (c : ascii) : bool :=
  let n := nat_of_ascii c in (65 <=? n)%nat && (n <=? 90)%nat.
Definition is_lower_char (c : ascii) : bool :=
  let n := nat_of_ascii c in (97 <=? n)%nat && (n <=? 122)%nat.

Definition upper_char (c : ascii) : ascii :=
  if is_lower_char c then ascii_of_nat (nat_of_ascii c - 32) else c.
Definition lower_char (c : ascii) : ascii :=
  if is_upper_char c then ascii_of_nat (nat_of_ascii c + 32) else c.

Fixpoint map_str (f : ascii -> ascii) (s : string) : string :=
  match s with
  | EmptyString => EmptyString
  | String c r => String (f c) (map_str f r)
  end.

(** [s.upper()] and [s.lower()] on ASCII text (code points below 128),
    where Python's case mapping is the one below. Python's mapping of other
    characters (for instance the dotless i to I) is not modelled: a property
    that depends on it assumes ASCII arguments. *)
Definition upper (s : string) : string := map_str upper_char s.
Definition lower (s : string) : string := map_str lower_char s.

(** [s.capitalize()]: first character upper-cased, the rest lower-cased *)
Definition capitalize (s : string) : string :=
  match s with
  | EmptyString => EmptyString
  | String c r => String (upper_char c) (lower r)
  end.

Fixpoint starts_with (p s : string) : bool :=
  match p, s with
  | EmptyString, _ => true
  | String a p', String b s' => Ascii.eqb a b && starts_with p' s'
  | String _ _, EmptyString => false
  end.

(** [repr(s)]: single quotes unless [s] contains a single quote and no
    double quote; backslashes, the chosen quote, tab, newline, carriage
    return and the other control characters are escaped *)
Definition hex_digit (n : nat) : ascii :=
  if (n <? 10)%nat then ascii_of_nat (48 + n) else ascii_of_nat (87 + n).

Definition repr_char (q c : ascii) : string :=
  let n := nat_of_ascii c in
  if (n =? 92)%nat then String c (String c EmptyString)
  else if Ascii.eqb c q then String (ascii_of_nat 92) (String q EmptyString)
  else if (n =? 9)%nat then String (ascii_of_nat 92) (String "t"%char EmptyString)
  else if (n =? 10)%nat then String (ascii_of_nat 92) (String "n"%char EmptyString)
  else if (n =? 13)%nat then String (ascii_of_nat 92) (String "r"%char EmptyString)
  else if (n <? 32)%nat || (n =? 127)%nat then
    String (ascii_of_nat 92) (String "x"%char
      (String (hex_digit (n / 16)) (String (hex_digit (n mod 16)) EmptyString)))
  else String c EmptyString.

Fixpoint repr_body (q : ascii) (s : string) : string :=
  match s with
  | EmptyString => EmptyString
  | String c r => repr_char q c ++ repr_body q r
  end.

(** [sub in s] *)
Fixpoint contains (sub s : string) : bool :=
  starts_with sub s ||
  match s with
  | EmptyString => false
  | String _ r => contains sub r
  end.

Definition str_repr (s : string) : string :=
  let sq := ascii_of_nat 39 in
  let dq := ascii_of_nat 34 in
  let q := if contains (String sq EmptyString) s && negb (contains (String dq EmptyString) s)
           then dq else sq in
  String q (repr_body q s ++ String q EmptyString).

End PyStr.

(* ------------------------------------------------------------------ *)
(** ** Market type resolver ([detect_market_type], lines 202-225) *)

(** [ExchangeType] as used by the daemon: SPOT or PERPETUAL *)
Inductive ExchangeType := SPOT | PERPETUAL.

Definition ExchangeType_eqb (a b : ExchangeType) : bool :=
  match a, b with
  | SPOT, SPOT | PERPETUAL, PERPETUAL => true
  | _, _ => false
  end.

Definition detect_market_type (symbol exchange_name : string) : ExchangeType :=
  let symbol_upper := PyStr.upper symbol in
  let exchange_lower := PyStr.lower exchange_name in
  if String.eqb exchange_lower "hyperliquid" then
    if PyStr.contains ":USDC" symbol_upper || PyStr.contains ":PERP" symbol_upper
       || PyStr.contains ":SPOT" symbol_upper then
      if PyStr.contains ":SPOT" symbol_upper then SPOT else PERPETUAL
    else SPOT
  else if String.eqb exchange_lower "backpack" then
    if PyStr.contains "_PERP" symbol_upper || PyStr.contains "PERP" symbol_upper then
      PERPETUAL
    else if PyStr.contains "_SPOT" symbol_upper || PyStr.contains "SPOT" symbol_upper then
      SPOT
    else PERPETUAL
  else if String.eqb exchange_lower "lighter" then PERPETUAL
  else PERPETUAL.

(* ------------------------------------------------------------------ *)
(** ** Python values produced by [yaml.safe_load], and exceptions *)

Module Py.

(** Decimal digits *)
Inductive digit := D0 | D1 | D2 | D3 | D4 | D5 | D6 | D7 | D8 | D9.

Definition digit_val (d : digit) : N :=
  match d with
  | D0 => 0 | D1 => 1 | D2 => 2 | D3 => 3 | D4 => 4
  | D5 => 5 | D6 => 6 | D7 => 7 | D8 => 8 | D9 => 9
  end%N.

Definition digit_char (d : digit) : ascii :=
  match d with
  | D0 => "0" | D1 => "1" | D2 => "2" | D3 => "3" | D4 => "4"
  | D5 => "5" | D6 => "6" | D7 => "7" | D8 => "8" | D9 => "9"
  end%char.

Definition char_digit (c : ascii) : option digit :=
  match c with
  | "0" => Some D0 | "1" => Some D1 | "2" => Some D2 | "3" => Some D3
  | "4" => Some D4 | "5" => Some D5 | "6" => Some D6 | "7" => Some D7
  | "8" => Some D8 | "9" => Some D9 | _ => None
  end%char.

Definition digit_of_N (n : N) : digit :=
  match n with
  | 0 => D0 | 1 => D1 | 2 => D2 | 3 => D3 | 4 => D4
  | 5 => D5 | 6 => D6 | 7 => D7 | 8 => D8 | _ => D9
  end%N.

(** value of a digit string, most significant digit first *)
Definition digits_val (ds : list digit) : N :=
  fold_left (fun acc d => 10 * acc + digit_val d)%N ds 0%N.

(** decimal digits of [n] (as [str] prints them) *)
Fixpoint digits_of_N_aux (fuel : nat) (n : N) (acc : list digit) : list digit :=
  match fuel with
  | O => acc
  | S f =>
      let acc' := digit_of_N (N.modulo n 10) :: acc in
      if (n <? 10)%N then acc' else digits_of_N_aux f (N.div n 10) acc'
  end.

Definition digits_of_N (n : N) : list digit :=
  digits_of_N_aux (S (N.to_nat (N.log2 n))) n [].

Definition digits_str (ds : list digit) : string :=
  string_of_list_ascii (map digit_char ds).

(** A Python float, as its [repr] spells it: sign, integer digits,
    fraction digits, optional exponent; or [inf] / [nan]. *)
Inductive pyfloat :=
  | FNum (neg : bool) (i0 : digit) (ip fp : list digit)
         (ex : option (bool * digit * list digit))
  | FInf (neg : bool)
  | FNaN.

(** [decimal.Decimal] values *)
Inductive decimal :=
  | DFinite (neg : bool) (coeff : N) (exp : Z)
  | DInf (neg : bool)
  | DNaN (neg : bool) (signaling : bool) (payload : N).

(** Grid types ([core.services.grid.models.GridType], external to this file;
    its values are the six tags listed by the specification) *)
Inductive GridType :=
  | LONG | SHORT | MARTINGALE_LONG | MARTINGALE_SHORT | FOLLOW_LONG | FOLLOW_SHORT.

Definition GridType_value (g : GridType) : string :=
  match g with
  | LONG => "long" | SHORT => "short"
  | MARTINGALE_LONG => "martingale_long" | MARTINGALE_SHORT => "martingale_short"
  | FOLLOW_LONG => "follow_long" | FOLLOW_SHORT => "follow_short"
  end.

Definition GridType_name (g : GridType) : string :=
  match g with
  | LONG => "LONG" | SHORT => "SHORT"
  | MARTINGALE_LONG => "MARTINGALE_LONG" | MARTINGALE_SHORT => "MARTINGALE_SHORT"
  | FOLLOW_LONG => "FOLLOW_LONG" | FOLLOW_SHORT => "FOLLOW_SHORT"
  end.

Definition all_grid_types : list GridType :=
  [LONG; SHORT; MARTINGALE_LONG; MARTINGALE_SHORT; FOLLOW_LONG; FOLLOW_SHORT].

(** Python values. A YAML mapping is a [PDict] with string keys, in
    insertion order, each key bound once (it is a Python dict). *)
Inductive pyval :=
  | PNone
  | PBool (b : bool)
  | PInt (z : Z)
  | PFloat (f : pyfloat)
  | PStr (s : string)
  | PList (l : list pyval)
  | PDict (kv : list (string * pyval))
  | PDecimal (d : decimal)
  | PGridType (g : GridType).

(** Exceptions: [Exception] subclasses by class name, and the two
    [BaseException]s the daemon meets, [SystemExit] and [CancelledError]. *)
Inductive exc :=
  | PyExc (cls : string) (msg : string)
  | SystemExit (code : Z)
  | CancelledError.

(** [except Exception] catches exactly the [PyExc] ones *)
Definition is_Exception (e : exc) : bool :=
  match e with PyExc _ _ => true | _ => false end.

Inductive res (A : Type) := Ok (a : A) | Err (e : exc).
Arguments Ok {A} a.
Arguments Err {A} e.

Definition res_bind {A B} (m : res A) (k : A -> res B) : res B :=
  match m with Ok a => k a | Err e => Err e end.

Declare Scope res_scope.
Notation "x <- m ;; k" := (res_bind m (fun x => k))
  (at level 61, m at next level, right associativity) : res_scope.
Open Scope res_scope.

(** truth value of a Python object ([bool(x)]) *)
Definition float_truthy (f : pyfloat) : bool :=
  match f with
  | FNum _ i0 ip fp _ => existsb (fun d => negb (N.eqb (digit_val d) 0)) (i0 :: ip ++ fp)
  | FInf _ | FNaN => true
  end.

Definition decimal_truthy (d : decimal) : bool :=
  match d with
  | DFinite _ c _ => negb (N.eqb c 0)
  | _ => true
  end.

Definition truthy (v : pyval) : bool :=
  match v with
  | PNone => false
  | PBool b => b
  | PInt z => negb (Z.eqb z 0)
  | PFloat f => float_truthy f
  | PStr s => negb (String.eqb s "")
  | PList l => match l with [] => false | _ => true end
  | PDict kv => match kv with [] => false | _ => true end
  | PDecimal d => decimal_truthy d
  | PGridType _ => true
  end.

(** [a or b], with [b] evaluated only when [a] is falsy *)
Definition py_or (a : pyval) (b : unit -> res pyval) : res pyval :=
  if truthy a then Ok a else b tt.

(** dict primitives *)
Fixpoint dict_lookup (kv : list (string * pyval)) (k : string) : option pyval :=
  match kv with
  | [] => None
  | (k', v) :: r => if String.eqb k k' then Some v else dict_lookup r k
  end.

(** [d[k] = v]: an existing key keeps its position, a new key is appended *)
Fixpoint dict_set (kv : list (string * pyval)) (k : string) (v : pyval)
  : list (string * pyval) :=
  match kv with
  | [] => [(k, v)]
  | (k', v') :: r => if String.eqb k k' then (k, v) :: r else (k', v') :: dict_set r k v
  end.

Definition type_name (v : pyval) : string :=
  match v with
  | PNone => "NoneType" | PBool _ => "bool" | PInt _ => "int" | PFloat _ => "float"
  | PStr _ => "str" | PList _ => "list" | PDict _ => "dict"
  | PDecimal _ => "decimal.Decimal" | PGridType _ => "GridType"
  end.

(** [v[k]] with a string key *)
Definition getitem (v : pyval) (k : string) : res pyval :=
  match v with
  | PDict kv =>
      match dict_lookup kv k with
      | Some x => Ok x
      | None => Err (PyExc "KeyError" k)
      end
  | PList _ => Err (PyExc "TypeError" "list indices must be integers or slices, not str")
  | PStr _ => Err (PyExc "TypeError" "string indices must be integers, not 'str'")
  | _ => Err (PyExc "TypeError" (type_name v ++ " object is not subscriptable"))
  end.

(** [v.get(k, default)] *)
Definition get (v : pyval) (k : string) (default : pyval) : res pyval :=
  match v with
  | PDict kv =>
      match dict_lookup kv k with
      | Some x => Ok x
      | None => Ok default
      end
  | _ => Err (PyExc "AttributeError" (type_name v ++ " object has no attribute 'get'"))
  end.

(** [k in v] for a string [k] *)
Definition contains_key (k : string) (v : pyval) : res bool :=
  match v with
  | PDict kv => Ok (match dict_lookup kv k with Some _ => true | None => false end)
  | PList l => Ok (existsb (fun x => match x with PStr s => String.eqb s k | _ => false end) l)
  | PStr s => Ok (PyStr.contains k s)
  | _ => Err (PyExc "TypeError" ("argument of type " ++ type_name v ++ " is not iterable"))
  end.

(** [v.lower()] / [v.upper()]: only strings have them *)
Definition str_method (f : string -> string) (name : string) (v : pyval) : res string :=
  match v with
  | PStr s => Ok (f s)
  | _ => Err (PyExc "AttributeError" (type_name v ++ " object has no attribute '" ++ name ++ "'"))
  end.

Definition py_lower := str_method PyStr.lower "lower".
Definition py_upper := str_method PyStr.upper "upper".

End Py.

(* ------------------------------------------------------------------ *)
(** ** The conversions the translator applies: [Decimal(str(v))], [int(v)],
    [str(v)] *)

Module Conv.
Import Py.
Local Open Scope string_scope.

Definition is_space (c : ascii) : bool :=
  let n := nat_of_ascii c in
  ((9 <=? n) && (n <=? 13))%nat || ((28 <=? n) && (n <=? 32))%nat.

Fixpoint drop_spaces (l : list ascii) : list ascii :=
  match l with
  | c :: r => if is_space c then drop_spaces r else l
  | [] => []
  end.

(** [s.strip()] *)
Definition strip (l : list ascii) : list ascii := rev (drop_spaces (rev (drop_spaces l))).

(** leading digits of [l], and what follows them *)
Fixpoint span_digits (l : list ascii) : list digit * list ascii :=
  match l with
  | c :: r =>
      match char_digit c with
      | Some d => let (ds, rest) := span_digits r in (d :: ds, rest)
      | None => ([], l)
      end
  | [] => ([], [])
  end.

Definition take_sign (l : list ascii) : bool * list ascii :=
  match l with
  | "-"%char :: r => (true, r)
  | "+"%char :: r => (false, r)
  | _ => (false, l)
  end.

Definition all_digits (l : list ascii) : option (list digit) :=
  match span_digits l with
  | (ds, []) => Some ds
  | _ => None
  end.

Definition signed (neg : bool) (n : N) : Z := if neg then Z.opp (Z.of_N n) else Z.of_N n.

(** the exponent part [E[+-]digits] of a decimal literal, or nothing *)
Definition parse_exponent (l : list ascii) : option Z :=
  match l with
  | [] => Some 0%Z
  | e :: r =>
      if Ascii.eqb (PyStr.lower_char e) "e"%char then
        let (eneg, r') := take_sign r in
        match span_digits r' with
        | (d :: ds, []) => Some (signed eneg (digits_val (d :: ds)))
        | _ => None
        end
      else None
  end.

(** the finite-number form [int[.frac][E exp]] of a decimal literal *)
Definition parse_finite (neg : bool) (l : list ascii) : option decimal :=
  let (ids, r1) := span_digits l in
  let '(fds, r3) :=
    match r1 with
    | "."%char :: r2 => span_digits r2
    | _ => ([], r1)
    end in
  match (ids ++ fds)%list with
  | [] => None
  | all =>
      match parse_exponent r3 with
      | Some e => Some (DFinite neg (digits_val all) (e - Z.of_nat (List.length fds))%Z)
      | None => None
      end
  end.

(** [Decimal(s)]: surrounding white space and underscores are dropped, then
    [[sign] (finite | Inf | Infinity | NaN[digits] | sNaN[digits])],
    letters in any case. *)
Definition parse_decimal (s : string) : option decimal :=
  let l := filter (fun c => negb (Ascii.eqb c "_"%char)) (strip (list_ascii_of_string s)) in
  let (neg, r) := take_sign l in
  let lr := map PyStr.lower_char r in
  if String.eqb (string_of_list_ascii lr) "inf"
     || String.eqb (string_of_list_ascii lr) "infinity" then
    Some (DInf neg)
  else
    match lr with
    | "n"%char :: "a"%char :: "n"%char :: ds =>
        match all_digits ds with
        | Some p => Some (DNaN neg false (digits_val p))
        | None => None
        end
    | "s"%char :: "n"%char :: "a"%char :: "n"%char :: ds =>
        match all_digits ds with
        | Some p => Some (DNaN neg true (digits_val p))
        | None => None
        end
    | _ => parse_finite neg r
    end.

Definition py_Decimal (s : string) : res decimal :=
  match parse_decimal s with
  | Some d => Ok d
  | None => Err (PyExc "decimal.InvalidOperation" "[<class 'decimal.ConversionSyntax'>]")
  end.

(** body of an [int()] literal: digits, single underscores between digits *)
Fixpoint int_body (l : list ascii) : option (list digit) :=
  match l with
  | [] => None
  | c :: r =>
      match char_digit c with
      | None => None
      | Some d =>
          match r with
          | [] => Some [d]
          | "_"%char :: r' =>
              match int_body r' with Some ds => Some (d :: ds) | None => None end
          | _ => match int_body r with Some ds => Some (d :: ds) | None => None end
          end
      end
  end.

Definition pow10 (k : nat) : N := N.pow 10 (N.of_nat k).

(** truncation toward zero of [coeff * 10^exp] *)
Definition trunc_scaled (neg : bool) (coeff : N) (e : Z) : Z :=
  signed neg (if (0 <=? e)%Z then coeff * N.pow 10 (Z.to_N e)
              else N.div coeff (N.pow 10 (Z.to_N (- e))))%N.

Definition float_exponent (ex : option (bool * digit * list digit)) : Z :=
  match ex with
  | None => 0%Z
  | Some (eneg, e0, es) => signed eneg (digits_val (e0 :: es))
  end.

(** [int(v)] *)
Definition py_int (v : pyval) : res Z :=
  match v with
  | PInt z => Ok z
  | PBool b => Ok (if b then 1%Z else 0%Z)
  | PFloat (FNum neg i0 ip fp ex) =>
      Ok (trunc_scaled neg (digits_val (i0 :: ip ++ fp)%list)
            (float_exponent ex - Z.of_nat (List.length fp))%Z)
  | PFloat (FInf _) => Err (PyExc "OverflowError" "cannot convert float infinity to integer")
  | PFloat FNaN => Err (PyExc "ValueError" "cannot convert float NaN to integer")
  | PDecimal (DFinite neg c e) => Ok (trunc_scaled neg c e)
  | PDecimal (DInf _) => Err (PyExc "OverflowError" "cannot convert Infinity to integer")
  | PDecimal (DNaN _ _ _) => Err (PyExc "ValueError" "cannot convert NaN to integer")
  | PStr s =>
      let (neg, r) := take_sign (strip (list_ascii_of_string s)) in
      match int_body r with
      | Some ds => Ok (signed neg (digits_val ds))
      | None => Err (PyExc "ValueError" ("invalid literal for int() with base 10: '" ++ s ++ "'"))
      end
  | _ => Err (PyExc "TypeError" ("int() argument must be a string, a bytes-like object or a real number, not '" ++ type_name v ++ "'"))
  end.

Definition sign_str (neg : bool) : string := if neg then "-" else "".

Definition int_str (z : Z) : string :=
  sign_str (Z.ltb z 0) ++ digits_str (digits_of_N (Z.abs_N z)).

(** [repr(f)] of a float *)
Definition float_str (f : pyfloat) : string :=
  match f with
  | FNum neg i0 ip fp ex =>
      sign_str neg ++ digits_str (i0 :: ip)
      ++ match fp with [] => "" | _ => "." ++ digits_str fp end
      ++ match ex with
         | None => ""
         | Some (eneg, e0, es) => "e" ++ (if eneg then "-" else "+") ++ digits_str (e0 :: es)
         end
  | FInf neg => sign_str neg ++ "inf"
  | FNaN => "nan"
  end.

(** [str(d)] of a Decimal (scientific notation as [Decimal.__str__] picks it) *)
Definition decimal_str (d : decimal) : string :=
  match d with
  | DInf neg => sign_str neg ++ "Infinity"
  | DNaN neg sig p =>
      sign_str neg ++ (if sig then "sNaN" else "NaN")
      ++ (if N.eqb p 0 then "" else digits_str (digits_of_N p))
  | DFinite neg c e =>
      let ds := digits_of_N c in
      let n := Z.of_nat (List.length ds) in
      let leftdigits := (e + n)%Z in
      let dotplace := if (e <=? 0)%Z && (-6 <? leftdigits)%Z then leftdigits else 1%Z in
      let body :=
        if (dotplace <=? 0)%Z then
          "0." ++ digits_str (repeat D0 (Z.to_nat (- dotplace)) ++ ds)%list
        else if (n <=? dotplace)%Z then
          digits_str (ds ++ repeat D0 (Z.to_nat (dotplace - n)))%list
        else
          digits_str (firstn (Z.to_nat dotplace) ds) ++ "."
          ++ digits_str (skipn (Z.to_nat dotplace) ds) in
      let ex :=
        if Z.eqb leftdigits dotplace then ""
        else "E" ++ (if (leftdigits - dotplace <? 0)%Z then "-" else "+")
             ++ digits_str (digits_of_N (Z.abs_N (leftdigits - dotplace))) in
      sign_str neg ++ body ++ ex
  end.

Fixpoint join (sep : string) (l : list string) : string :=
  match l with
  | [] => ""
  | [x] => x
  | x :: r => x ++ sep ++ join sep r
  end.

(** [repr(v)] (string quoting without escapes) *)
Fixpoint py_repr (v : pyval) : string :=
  match v with
  | PNone => "None"
  | PBool b => if b then "True" else "False"
  | PInt z => int_str z
  | PFloat f => float_str f
  | PStr s => PyStr.str_repr s
  | PList l => "[" ++ join ", " (map py_repr l) ++ "]"
  | PDict kv => "{" ++ join ", " (map (fun '(k, x) => PyStr.str_repr k ++ ": " ++ py_repr x) kv) ++ "}"
  | PDecimal d => "Decimal('" ++ decimal_str d ++ "')"
  | PGridType g => "<GridType." ++ GridType_name g ++ ": '" ++ GridType_value g ++ "'>"
  end.

(** [str(v)] *)
Definition py_str (v : pyval) : string :=
  match v with
  | PStr s => s
  | PDecimal d => decimal_str d
  | PGridType g => "GridType." ++ GridType_name g
  | _ => py_repr v
  end.

(** Modelled from the spec: [GridType] ([core.services.grid.models]) is not
    among the sources. The spec lists its six tags; the code uses it as an
    [Enum] (members [GridType.FOLLOW_LONG], attribute [.value], lookup
    [GridType(v)]), whose lookup by value raises
    [ValueError("%r is not a valid GridType")] for any other value. *)
Definition GridType_of (v : pyval) : res GridType :=
  match v with
  | PStr s =>
      match find (fun g => String.eqb (GridType_value g) s) all_grid_types with
      | Some g => Ok g
      | None => Err (PyExc "ValueError" (py_repr v ++ " is not a valid GridType"))
      end
  | _ => Err (PyExc "ValueError" (py_repr v ++ " is not a valid GridType"))
  end.

(** [Decimal(str(v))], the translator's conversion of numeric fields *)
Definition to_decimal (v : pyval) : res pyval :=
  d <- py_Decimal (py_str v) ;; Ok (PDecimal d).

End Conv.

(* ------------------------------------------------------------------ *)
(** ** Configuration translator ([create_grid_config], lines 90-200) *)

Module Translator.
Import Py Conv.

(** The keyword arguments collected in [params], in insertion order *)
Definition params := list (string * pyval).

(** Modelled from the spec: [GridConfig] ([core.services.grid.models]) is
    not among the sources. The spec describes it as the immutable value
    object holding the translated parameters, so calling [GridConfig]
    with [params] as keyword arguments keeps them as its fields. *)
Record GridConfig := mkGridConfig { gc_fields : params }.

Definition make_GridConfig (p : params) : res GridConfig := Ok (mkGridConfig p).

(** attribute lookup on the resulting configuration *)
Definition attr (c : GridConfig) (k : string) : option pyval := dict_lookup (gc_fields c) k.

(** line 102: [Decimal(str(gc.get('max_position'))) if gc.get('max_position') else None] *)
Definition max_position_of (gc : pyval) : res pyval :=
  x <- get gc "max_position" PNone ;;
  if truthy x then (y <- get gc "max_position" PNone ;; to_decimal y) else Ok PNone.

Definition int_of (v : pyval) : res pyval := z <- py_int v ;; Ok (PInt z).

(** lines 96-110: the base parameters *)
Definition base_params (gc : pyval) (grid_type : GridType) : res params :=
  exchange <- getitem gc "exchange" ;;
  symbol <- getitem gc "symbol" ;;
  grid_interval <- (x <- getitem gc "grid_interval" ;; to_decimal x) ;;
  order_amount <- (x <- getitem gc "order_amount" ;; to_decimal x) ;;
  max_position <- max_position_of gc ;;
  enable_notifications <- get gc "enable_notifications" (PBool false) ;;
  order_health_check_enabled <- get gc "order_health_check_enabled" (PBool true) ;;
  order_health_check_interval <- get gc "order_health_check_interval" (PInt 600) ;;
  rest_position_query_interval <- get gc "rest_position_query_interval" (PInt 1) ;;
  fee_rate <- (x <- get gc "fee_rate" (PStr "0.0001") ;; to_decimal x) ;;
  quantity_precision <- (x <- get gc "quantity_precision" (PInt 3) ;; int_of x) ;;
  price_decimals <- (x <- get gc "price_decimals" (PInt 2) ;; int_of x) ;;
  Ok [("exchange", exchange); ("symbol", symbol); ("grid_type", PGridType grid_type);
      ("grid_interval", grid_interval); ("order_amount", order_amount);
      ("max_position", max_position); ("enable_notifications", enable_notifications);
      ("order_health_check_enabled", order_health_check_enabled);
      ("order_health_check_interval", order_health_check_interval);
      ("rest_position_query_interval", rest_position_query_interval);
      ("fee_rate", fee_rate); ("quantity_precision", quantity_precision);
      ("price_decimals", price_decimals)].

Definition is_follow (g : GridType) : bool :=
  match g with FOLLOW_LONG | FOLLOW_SHORT => true | _ => false end.

(** lines 112-120: follow-grid parameters, or the price range *)
Definition range_params (gc : pyval) (grid_type : GridType) (p : params) : res params :=
  if is_follow grid_type then
    follow_grid_count <- getitem gc "follow_grid_count" ;;
    let p := dict_set p "follow_grid_count" follow_grid_count in
    follow_timeout <- get gc "follow_timeout" (PInt 300) ;;
    let p := dict_set p "follow_timeout" follow_timeout in
    follow_distance <- get gc "follow_distance" (PInt 1) ;;
    let p := dict_set p "follow_distance" follow_distance in
    price_offset_grids <- get gc "price_offset_grids" (PInt 0) ;;
    Ok (dict_set p "price_offset_grids" price_offset_grids)
  else
    lower_price <- (r <- getitem gc "price_range" ;; x <- getitem r "lower_price" ;; to_decimal x) ;;
    let p := dict_set p "lower_price" lower_price in
    upper_price <- (r <- getitem gc "price_range" ;; x <- getitem r "upper_price" ;; to_decimal x) ;;
    Ok (dict_set p "upper_price" upper_price).

(** the conversion applied to an optional field when it is copied *)
Inductive conv := CId | CDecimal | CInt | CStr.

Definition apply_conv (c : conv) (v : pyval) : res pyval :=
  match c with
  | CId => Ok v
  | CDecimal => to_decimal v
  | CInt => int_of v
  | CStr => Ok (PStr (py_str v))
  end.

(** lines 122-198, in source order: [if 'k' in gc: params['k'] = conv(gc['k'])] *)
Definition optional_fields : list (string * conv) :=
  [("martingale_increment", CDecimal);
   ("scalping_enabled", CId); ("scalping_trigger_percent", CId);
   ("scalping_take_profit_grids", CId);
   ("smart_scalping_enabled", CId); ("allowed_deep_drops", CId);
   ("min_drop_threshold_percent", CId);
   ("capital_protection_enabled", CId); ("capital_protection_trigger_percent", CId);
   ("take_profit_enabled", CId); ("take_profit_percentage", CDecimal);
   ("price_lock_enabled", CId); ("price_lock_threshold", CDecimal);
   ("price_lock_start_at_threshold", CId);
   ("reverse_order_grid_distance", CInt);
   ("stop_loss_protection_enabled", CId); ("stop_loss_trigger_percent", CDecimal);
   ("stop_loss_escape_timeout", CInt); ("stop_loss_apr_threshold", CDecimal);
   ("exit_cleanup_enabled", CId);
   ("margin_mode", CStr);
   ("leverage", CInt);
   ("spot_reserve", CId);
   ("position_tolerance", CId);
   ("health_check_snapshot_count", CInt)].

Fixpoint copy_optional (gc : pyval) (fields : list (string * conv)) (p : params) : res params :=
  match fields with
  | [] => Ok p
  | (k, c) :: rest =>
      present <- contains_key k gc ;;
      if present then
        v <- getitem gc k ;;
        v' <- apply_conv c v ;;
        copy_optional gc rest (dict_set p k v')
      else copy_optional gc rest p
  end.

Definition create_grid_config (config_data : pyval) : res GridConfig :=
  gc <- getitem config_data "grid_system" ;;
  gtv <- getitem gc "grid_type" ;;
  grid_type <- GridType_of gtv ;;
  p <- base_params gc grid_type ;;
  p <- range_params gc grid_type p ;;
  p <- copy_optional gc optional_fields p ;;
  make_GridConfig p.

End Translator.

(* ------------------------------------------------------------------ *)
(** ** A state and exception monad for the daemon's statements *)

Module Eff.
Import Py.

Definition M (S A : Type) := S -> res A * S.

Definition ret {S A} (a : A) : M S A := fun s => (Ok a, s).
Definition bind {S A B} (m : M S A) (k : A -> M S B) : M S B :=
  fun s => match m s with
           | (Ok a, s') => k a s'
           | (Err e, s') => (Err e, s')
           end.
Definition raise {S A} (e : exc) : M S A := fun s => (Err e, s).
Definition lift {S A} (r : res A) : M S A := fun s => (r, s).
Definition getS {S} : M S S := fun s => (Ok s, s).
Definition modify {S} (f : S -> S) : M S unit := fun s => (Ok tt, f s).

(** [try: m except Exception as e: h(e)] *)
Definition try_except {S A} (m : M S A) (h : exc -> M S A) : M S A :=
  fun s => match m s with
           | (Err e, s') => if is_Exception e then h e s' else (Err e, s')
           | r => r
           end.

(** [try: m finally: f]: an exception raised by [f] replaces the outcome of [m] *)
Definition try_finally {S A} (m : M S A) (f : M S unit) : M S A :=
  fun s => match m s with
           | (r, s') =>
               match f s' with
               | (Ok _, s'') => (r, s'')
               | (Err e, s'') => (Err e, s'')
               end
           end.

End Eff.

Declare Scope eff_scope.
Notation "x <-- m ;; k" := (Eff.bind m (fun x => k))
  (at level 61, m at next level, right associativity) : eff_scope.
Notation "m ;;; k" := (Eff.bind m (fun _ : unit => k))
  (at level 61, right associativity) : eff_scope.
Open Scope eff_scope.

(* ------------------------------------------------------------------ *)
(** ** Credentials and connection configuration
       ([create_exchange_adapter], lines 227-322) *)

Module Creds.
Import Py Conv Eff.

(** The process environment, and the files under [config/exchanges/]:
    a path that is absent does not exist; [None] is a file that [open] or
    [yaml.safe_load] fails on (an [Exception], caught by the code). *)
Definition env := list (string * string).
Definition files := list (string * option pyval).

Fixpoint assoc {A} (l : list (string * A)) (k : string) : option A :=
  match l with
  | [] => None
  | (k', v) :: r => if String.eqb k k' then Some v else assoc r k
  end.

(** [os.getenv(name)] *)
Definition getenv (e : env) (name : string) : pyval :=
  match assoc e name with Some s => PStr s | None => PNone end.

Definition exchange_config_path (exchange_name : string) : string :=
  "config/exchanges/" ++ exchange_name ++ "_config.yaml".

Record Creds := mkCreds { api_key : pyval; api_secret : pyval; wallet_address : pyval }.

Definition set_api_key (v : pyval) (c : Creds) := mkCreds v (api_secret c) (wallet_address c).
Definition set_api_secret (v : pyval) (c : Creds) := mkCreds (api_key c) v (wallet_address c).
Definition set_wallet_address (v : pyval) (c : Creds) := mkCreds (api_key c) (api_secret c) v.

(** [field = field or <fallback>], one assignment *)
Definition assign_or (field : Creds -> pyval) (set : pyval -> Creds -> Creds)
  (fallback : unit -> res pyval) : M Creds unit :=
  c <-- getS ;;
  v <-- lift (py_or (field c) fallback) ;;
  modify (set v).

(** lines 246-262: the body of the [try] once the file is loaded *)
Definition read_file_creds (exchange_name : string) (data : pyval) : M Creds unit :=
  auth_config <-- lift (x <- get data exchange_name (PDict []) ;; get x "authentication" (PDict [])) ;;
  if String.eqb exchange_name "hyperliquid" then
    assign_or api_key set_api_key (fun _ => get auth_config "private_key" (PStr "")) ;;;
    assign_or api_secret set_api_secret (fun _ => get auth_config "private_key" (PStr "")) ;;;
    assign_or wallet_address set_wallet_address (fun _ => get auth_config "wallet_address" (PStr ""))
  else if String.eqb exchange_name "lighter" then
    api_config <-- lift (get data "api_config" (PDict [])) ;;
    auth_config <-- lift (get api_config "auth" (PDict [])) ;;
    assign_or api_key set_api_key (fun _ => get auth_config "api_key_private_key" (PStr "")) ;;;
    assign_or api_secret set_api_secret (fun _ => get auth_config "api_key_private_key" (PStr ""))
  else
    assign_or api_key set_api_key (fun _ => get auth_config "api_key" (PStr "")) ;;;
    assign_or api_secret set_api_secret
      (fun _ => x <- get auth_config "private_key" (PStr "") ;;
                py_or x (fun _ => get auth_config "api_secret" (PStr ""))) ;;;
    assign_or wallet_address set_wallet_address (fun _ => get auth_config "wallet_address" (PStr "")).

(** lines 236-267 *)
Definition resolve_credentials (exchange_name : string) (e : env) (fs : files) : Creds :=
  let up := PyStr.upper exchange_name in
  let c0 := mkCreds (getenv e (up ++ "_API_KEY")) (getenv e (up ++ "_API_SECRET"))
                    (getenv e (up ++ "_WALLET_ADDRESS")) in
  if negb (truthy (api_key c0)) || negb (truthy (api_secret c0)) then
    match assoc fs (exchange_config_path exchange_name) with
    | None => c0
    | Some None => c0
    | Some (Some data) =>
        (* [except Exception]: the assignments made before the failure stay *)
        snd (read_file_creds exchange_name data c0)
    end
  else c0.

(** [ExchangeConfig] keyword arguments; [ec_wallet_address = None] when the
    call does not pass [wallet_address] *)
Record ExchangeConfig := mkExchangeConfig {
  ec_exchange_id : string;
  ec_name : string;
  ec_exchange_type : ExchangeType;
  ec_api_key : pyval;
  ec_api_secret : pyval;
  ec_wallet_address : option pyval;
  ec_testnet : pyval;
  ec_enable_websocket : bool;
  ec_enable_auto_reconnect : bool }.

Definition lighter_config (mt : ExchangeType) (testnet : pyval) : ExchangeConfig :=
  mkExchangeConfig "lighter" "Lighter" mt (PStr "") (PStr "") None testnet true true.

(** lines 269-322 *)
Definition make_exchange_config (exchange_name : string) (mt : ExchangeType)
  (c : Creds) (fs : files) : ExchangeConfig :=
  if String.eqb exchange_name "lighter" then
    match assoc fs "config/exchanges/lighter_config.yaml" with
    | None => lighter_config mt (PBool false)
    | Some None => lighter_config mt (PBool false)
    | Some (Some data) =>
        match (ac <- get data "api_config" (PDict []) ;; get ac "testnet" (PBool false)) with
        | Ok t => lighter_config mt t
        | Err _ => lighter_config mt (PBool false)
        end
    end
  else
    mkExchangeConfig exchange_name (PyStr.capitalize exchange_name) mt
      (if truthy (api_key c) then api_key c else PStr "")
      (if truthy (api_secret c) then api_secret c else PStr "")
      (Some (wallet_address c)) (PBool false) true true.

End Creds.

(* ------------------------------------------------------------------ *)
(** ** The runner: startup ([run], lines 377-506) and cleanup
       ([cleanup], lines 508-537) *)

Module Daemon.
Import Py Conv Eff Translator Creds.

(** Calls on collaborators, in the order they happen *)
Inductive event :=
  | ECreateAdapter (cfg : ExchangeConfig)  (** [factory.create_adapter(...)] *)
  | EConnect                               (** [adapter.connect()] *)
  | EComponents                            (** strategy, engine, tracker *)
  | EReserveNew                            (** reserve manager and monitor *)
  | ECoordNew                              (** [GridCoordinator(...)] *)
  | EReserveCheck                          (** [check_spot_reserve_on_startup] *)
  | ECoordStart | EMonitorStart
  | EStatsTaskStart | EStatsTaskCancel
  | ECleanupOnExit | ECoordStop | EMonitorStop
  | EDisconnect                            (** [adapter.disconnect()] *)
  | ELogError.                             (** an [except] clause logs *)

Definition event_eqb (a b : event) : bool :=
  match a, b with
  | ECreateAdapter _, ECreateAdapter _ | EConnect, EConnect | EComponents, EComponents
  | EReserveNew, EReserveNew | ECoordNew, ECoordNew | EReserveCheck, EReserveCheck
  | ECoordStart, ECoordStart | EMonitorStart, EMonitorStart
  | EStatsTaskStart, EStatsTaskStart | EStatsTaskCancel, EStatsTaskCancel
  | ECleanupOnExit, ECleanupOnExit | ECoordStop, ECoordStop | EMonitorStop, EMonitorStop
  | EDisconnect, EDisconnect | ELogError, ELogError => true
  | _, _ => false
  end.

Definition count_event (ev : event) (t : list event) : nat :=
  List.length (filter (event_eqb ev) t).

(** [self._running], [self._shutdown_event], [self.coordinator],
    [self.exchange_adapter] (the adapter is represented by the configuration
    it was created with, its [config] attribute), [self.reserve_monitor],
    and the trace of collaborator calls *)
Record Runner := mkRunner {
  running : bool;
  shutdown_set : bool;
  coordinator : bool;
  exchange_adapter : option ExchangeConfig;
  reserve_monitor : bool;
  trace : list event }.

Definition init_runner : Runner := mkRunner false false false None false [].

Definition with_trace (ev : event) (r : Runner) : Runner :=
  mkRunner (running r) (shutdown_set r) (coordinator r) (exchange_adapter r)
    (reserve_monitor r) (trace r ++ [ev]).
Definition set_running (b : bool) (r : Runner) : Runner :=
  mkRunner b (shutdown_set r) (coordinator r) (exchange_adapter r) (reserve_monitor r) (trace r).
Definition set_coordinator (r : Runner) : Runner :=
  mkRunner (running r) (shutdown_set r) true (exchange_adapter r) (reserve_monitor r) (trace r).
Definition set_adapter (a : ExchangeConfig) (r : Runner) : Runner :=
  mkRunner (running r) (shutdown_set r) (coordinator r) (Some a) (reserve_monitor r) (trace r).
Definition set_reserve_monitor (r : Runner) : Runner :=
  mkRunner (running r) (shutdown_set r) (coordinator r) (exchange_adapter r) true (trace r).

(** Outcomes of everything outside this file: the configuration file, the
    environment and exchange files, and each collaborator call site. *)
Record World := mkWorld {
  w_config : res pyval;            (** lines 83-84: [open] and [yaml.safe_load] *)
  w_env : env;
  w_files : files;
  w_factory : res unit;
  w_connect : res unit;
  w_components : res unit;
  w_reserve_new : res unit;
  w_coord_new : res unit;
  w_reserve_check : res bool;
  w_disconnect_prestart : res unit; (** line 465 *)
  w_coord_start : res unit;
  w_monitor_start : res unit;
  w_cleanup_on_exit : res unit;
  w_coord_stop : res unit;
  w_monitor_stop : res unit;
  w_disconnect : res unit }.        (** line 529 *)

(** an outcome that [except Exception] lets through or catches *)
Definition ordinary {A} (o : res A) : bool :=
  match o with Ok _ => true | Err e => is_Exception e end.



(** a collaborator call: recorded, then its outcome *)
Definition call {A} (ev : event) (o : res A) : M Runner A :=
  modify (with_trace ev) ;;; lift o.

Definition log_error : M Runner unit := modify (with_trace ELogError).

Definition sys_exit {A} (code : Z) : M Runner A := raise (SystemExit code).

(** lines 227-332 *)
Definition create_exchange_adapter (w : World) (config_data : pyval) : M Runner ExchangeConfig :=
  grid_config <-- lift (getitem config_data "grid_system") ;;
  exchange_name <-- lift (x <- getitem grid_config "exchange" ;; py_lower x) ;;
  symbol <-- lift (getitem grid_config "symbol") ;;
  (* [detect_market_type(symbol, exchange_name)] calls [symbol.upper()] *)
  market_type <-- lift (_ <- py_upper symbol ;;
                        match symbol with
                        | PStr s => Ok (detect_market_type s exchange_name)
                        | _ => Err (PyExc "AttributeError" "object has no attribute 'upper'")
                        end) ;;
  let creds := resolve_credentials exchange_name (w_env w) (w_files w) in
  let exchange_config := make_exchange_config exchange_name market_type creds (w_files w) in
  call (ECreateAdapter exchange_config) (w_factory w) ;;;
  call EConnect (w_connect w) ;;;
  ret exchange_config.

(** lines 508-537 *)
Definition cleanup (w : World) : M Runner unit :=
  modify (set_running false) ;;;
  try_except
    (r <-- getS ;;
     (if coordinator r then
        try_except (call ECleanupOnExit (w_cleanup_on_exit w)) (fun _ => log_error) ;;;
        call ECoordStop (w_coord_stop w)
      else ret tt) ;;;
     r <-- getS ;;
     (if reserve_monitor r then call EMonitorStop (w_monitor_stop w) else ret tt) ;;;
     r <-- getS ;;
     (match exchange_adapter r with
      | Some _ => call EDisconnect (w_disconnect w)
      | None => ret tt
      end))
    (fun _ => log_error).

(** [grid_config.<k>] *)
Definition gattr (c : GridConfig) (k : string) : res pyval :=
  match attr c k with
  | Some v => Ok v
  | None => Err (PyExc "AttributeError" ("'GridConfig' object has no attribute '" ++ k ++ "'"))
  end.

(** [grid_config.grid_type.value] *)
Definition grid_type_value (c : GridConfig) : res string :=
  v <- gattr c "grid_type" ;;
  match v with
  | PGridType g => Ok (GridType_value g)
  | _ => Err (PyExc "AttributeError" "object has no attribute 'value'")
  end.

(** lines 401-413: the spot short check *)
Definition spot_short_check (c : GridConfig) : M Runner unit :=
  exchange_name <-- lift (x <- gattr c "exchange" ;; py_lower x) ;;
  is_spot <--
    (if String.eqb exchange_name "hyperliquid" then
       lift (s <- gattr c "symbol" ;; u <- py_upper s ;; Ok (PyStr.contains ":SPOT" u))
     else if String.eqb exchange_name "backpack" then
       lift (s <- gattr c "symbol" ;; u <- py_upper s ;;
             Ok (PyStr.contains "_SPOT" u || PyStr.contains "SPOT" u))
     else ret false) ;;
  gtv <-- lift (grid_type_value c) ;;
  if is_spot && existsb (String.eqb gtv) ["short"; "martingale_short"; "follow_short"] then
    log_error ;;; sys_exit 1
  else ret tt.

(** lines 427-446: is a reserve manager created? *)
Definition reserve_enabled (w : World) (c : GridConfig) (adapter : ExchangeConfig)
  : M Runner bool :=
  if ExchangeType_eqb (ec_exchange_type adapter) SPOT then
    let spot_reserve_config := match attr c "spot_reserve" with Some v => v | None => PNone end in
    enabled <-- (if truthy spot_reserve_config
                 then lift (get spot_reserve_config "enabled" (PBool false))
                 else ret spot_reserve_config) ;;
    if truthy enabled then
      call EReserveNew (w_reserve_new w) ;;; modify set_reserve_monitor ;;; ret true
    else ret false
  else ret false.

(** lines 80-88: [load_config]; an [Exception] is logged and re-raised *)
Definition load_config (w : World) : M Runner pyval :=
  try_except (lift (w_config w)) (fun e => log_error ;;; raise e).

(** lines 391-499: the body of the [try] *)
Definition run_body (w : World) : M Runner unit :=
  config_data <-- load_config w ;;
  grid_config <-- lift (create_grid_config config_data) ;;
  spot_short_check grid_config ;;;
  adapter <-- create_exchange_adapter w config_data ;;
  modify (set_adapter adapter) ;;;
  call EComponents (w_components w) ;;;
  has_reserve <-- reserve_enabled w grid_config adapter ;;
  call ECoordNew (w_coord_new w) ;;;
  modify set_coordinator ;;;
  (if has_reserve then
     ok <-- call EReserveCheck (w_reserve_check w) ;;
     if ok then ret tt
     else log_error ;;; call EDisconnect (w_disconnect_prestart w) ;;; sys_exit 1
   else ret tt) ;;;
  call ECoordStart (w_coord_start w) ;;;
  (if has_reserve then call EMonitorStart (w_monitor_start w) else ret tt) ;;;
  modify (set_running true) ;;;
  modify (with_trace EStatsTaskStart) ;;;
  (* [await self._shutdown_event.wait()]: the run continues once a signal
     has been delivered; the statistics task is then cancelled and its
     [CancelledError] swallowed *)
  modify (with_trace EStatsTaskCancel).

(** lines 391-506: [try: body except Exception: log; raise finally: cleanup] *)
Definition run (w : World) : M Runner unit :=
  try_finally (try_except (run_body w) (fun e => log_error ;;; raise e)) (cleanup w).

End Daemon.

(* ------------------------------------------------------------------ *)
(** ** Statistics reporter ([print_statistics], lines 334-375) *)

Module Stats.
Import Py.

(** What one turn of the [while] loop meets: [self._running] at the test,
    the outcome of [asyncio.sleep] (a [CancelledError] when the task is
    cancelled), [self.coordinator] after the sleep (an identity, [None] when
    there is none), the outcome of [get_statistics()] and of the report. *)
Record Cycle := mkCycle {
  c_running : bool;
  c_sleep : res unit;
  c_coordinator : option nat;
  c_stats : res unit;
  c_report : res unit }.

Inductive sevent :=
  | SSleep            (** [await asyncio.sleep(self.stats_interval)] *)
  | SRead (k : nat)   (** [coordinator k .get_statistics()] *)
  | SReport           (** the report has been logged *)
  | SLogError.        (** [except Exception]: the error is logged *)

Inductive outcome := LoopExit | LoopRaise (e : exc) | LoopPending.

(** the body of the [try] (lines 338-372) *)
Definition cycle_body (c : Cycle) : list sevent * res unit :=
  match c_sleep c with
  | Err e => ([SSleep], Err e)
  | Ok _ =>
      match c_coordinator c with
      | None => ([SSleep], Ok tt)                         (* continue *)
      | Some k =>
          match c_stats c with
          | Err e => ([SSleep; SRead k], Err e)
          | Ok _ =>
              match c_report c with
              | Err e => ([SSleep; SRead k], Err e)
              | Ok _ => ([SSleep; SRead k; SReport], Ok tt)
              end
          end
      end
  end.

(** the loop over the turns the environment provides; the events are
    grouped per turn *)
Fixpoint print_statistics (cs : list Cycle) : list (list sevent) * outcome :=
  match cs with
  | [] => ([], LoopPending)
  | c :: rest =>
      if negb (c_running c) then ([], LoopExit)
      else
        let (evs, r) := cycle_body c in
        match r with
        | Ok _ => let (t, o) := print_statistics rest in (evs :: t, o)
        | Err e =>
            if is_Exception e then
              let (t, o) := print_statistics rest in ((evs ++ [SLogError]) :: t, o)
            else ([evs], LoopRaise e)
        end
  end.

End Stats.

(* ------------------------------------------------------------------ *)
(** ** Signal bridge ([handle_signal], lines 539-542) and the main task *)

Module Signal.

(** The main task: before [await self._shutdown_event.wait()], blocked on
    it, or finished (after the [finally: await self.cleanup()]). *)
Inductive phase := Starting | Waiting | Finished.

Record SigState := mkSig {
  ev_value : bool;        (** [asyncio.Event._value] *)
  set_transitions : nat;  (** times [_value] went from false to true *)
  cleanups : nat;         (** times [cleanup()] ran *)
  main_phase : phase;
  logs : nat }.

Definition init_sig : SigState := mkSig false 0 0 Starting 0.

(** [asyncio.Event.set]: [if not self._value: self._value = True; wake waiters] *)
Definition event_set (s : SigState) : SigState :=
  if ev_value s then s
  else mkSig true (S (set_transitions s)) (cleanups s) (main_phase s) (logs s).

(** [handle_signal]: log, then [self._shutdown_event.set()] *)
Definition handle_signal (signum : Z) (s : SigState) : SigState :=
  event_set (mkSig (ev_value s) (set_transitions s) (cleanups s) (main_phase s) (S (logs s))).

Definition run_cleanup (s : SigState) : SigState :=
  mkSig (ev_value s) (set_transitions s) (S (cleanups s)) Finished (logs s).

(** One step of the main task. [startup_ok] says whether the startup
    sequence reaches the wait or raises (then [finally] runs the cleanup). *)
Definition main_step (startup_ok : bool) (s : SigState) : SigState :=
  match main_phase s with
  | Starting =>
      if startup_ok then mkSig (ev_value s) (set_transitions s) (cleanups s) Waiting (logs s)
      else run_cleanup s
  | Waiting => if ev_value s then run_cleanup s else s
  | Finished => s
  end.

Inductive step := Sig (signum : Z) | Main (startup_ok : bool).

Definition do_step (s : SigState) (st : step) : SigState :=
  match st with
  | Sig n => handle_signal n s
  | Main ok => main_step ok s
  end.

Definition exec (sched : list step) : SigState := fold_left do_step sched init_sig.

Definition signal_count (sched : list step) : nat :=
  List.length (filter (fun st => match st with Sig _ => true | Main _ => false end) sched).

End Signal.

(* ------------------------------------------------------------------ *)
(** ** Concrete inputs *)

Module Scenarios.
Import Py Conv Translator Creds Daemon.

(** a world in which every collaborator call succeeds *)
Definition world_of (doc : pyval) (reserve_ok : bool) : World :=
  mkWorld (Ok doc) [] [] (Ok tt) (Ok tt) (Ok tt) (Ok tt) (Ok tt) (Ok reserve_ok)
    (Ok tt) (Ok tt) (Ok tt) (Ok tt) (Ok tt) (Ok tt) (Ok tt).

Definition grid_doc (exchange symbol grid_type : string) (extra : list (string * pyval)) : pyval :=
  PDict [("grid_system", PDict ([("exchange", PStr exchange); ("symbol", PStr symbol);
    ("grid_type", PStr grid_type); ("grid_interval", PInt 10); ("order_amount", PStr "0.01");
    ("price_range", PDict [("lower_price", PInt 90000); ("upper_price", PInt 100000)])]
    ++ extra))].

(** a short grid on an untagged hyperliquid symbol *)
Definition doc_short_spot : pyval := grid_doc "hyperliquid" "BTC" "short" [].

(** a long grid on a hyperliquid spot symbol with the spot reserve enabled *)
Definition doc_reserve : pyval :=
  grid_doc "hyperliquid" "BTC:SPOT" "long" [("spot_reserve", PDict [("enabled", PBool true)])].


(** a runner at shutdown with a coordinator, a reserve monitor and an adapter *)
Definition runner_at_shutdown : Runner :=
  mkRunner true true true (Some (lighter_config PERPETUAL (PBool false))) true [].




(** a long grid whose [grid_system] has no [price_range] *)
Definition doc_long_no_range : pyval :=
  PDict [("grid_system", PDict [("exchange", PStr "hyperliquid"); ("symbol", PStr "BTC");
    ("grid_type", PStr "long"); ("grid_interval", PInt 10); ("order_amount", PStr "0.01")])].

(** a follow grid without [follow_grid_count] *)
Definition doc_follow_no_count : pyval :=
  grid_doc "hyperliquid" "BTC" "follow_long" [].

(** a long grid with an explicit zero [max_position] and a string leverage *)
Definition doc_long : pyval :=
  PDict [("grid_system", PDict [("exchange", PStr "hyperliquid"); ("symbol", PStr "BTC");
    ("grid_type", PStr "long"); ("grid_interval", PInt 10); ("order_amount", PStr "0.01");
    ("max_position", PInt 0); ("leverage", PStr "5");
    ("price_range", PDict [("lower_price", PInt 90000); ("upper_price", PInt 100000)])])].

(** a long grid on lighter *)
Definition doc_lighter : pyval := grid_doc "lighter" "BTC" "long" [].

(** a short grid on a backpack spot symbol *)
Definition doc_backpack_spot_short : pyval := grid_doc "backpack" "SOL_SPOT" "short" [].
(** a follow-long grid *)
Definition doc_follow_long : pyval :=
  grid_doc "hyperliquid" "BTC" "follow_long" [("follow_grid_count", PInt 5)].
(** a long grid with a take-profit percentage *)
Definition doc_long_take_profit : pyval :=
  grid_doc "hyperliquid" "BTC" "long" [("take_profit_percentage", PStr "1.5")].
(** every call succeeds except the adapter's [connect()] *)
Definition world_connect_fails : World :=
  let w := world_of doc_long true in
  mkWorld (w_config w) (w_env w) (w_files w) (w_factory w)
    (Err (PyExc "ConnectionError" "connection refused")) (w_components w)
    (w_reserve_new w) (w_coord_new w) (w_reserve_check w) (w_disconnect_prestart w)
    (w_coord_start w) (w_monitor_start w) (w_cleanup_on_exit w)
    (w_coord_stop w) (w_monitor_stop w) (w_disconnect w).
End Scenarios.

(* ------------------------------------------------------------------ *)
(** ** Vocabulary of the statements below *)

Import Py Conv Translator Creds Daemon Scenarios.

(** the shape every reachable state has *)
Definition sig_inv (s : Signal.SigState) : Prop :=
  Signal.set_transitions s = (if Signal.ev_value s then 1 else 0)%nat /\
  Signal.cleanups s = (match Signal.main_phase s with Signal.Finished => 1 | _ => 0 end)%nat.


(** The exception classes the translator's operations raise *)
Definition std_classes : list string :=
  ["KeyError"; "TypeError"; "ValueError"; "AttributeError";
   "decimal.InvalidOperation"; "OverflowError"].

Definition std_exc (e : exc) : bool :=
  match e with PyExc cls _ => existsb (String.eqb cls) std_classes | _ => false end.

Definition ok_or_std {A} (r : res A) : Prop :=
  match r with Ok _ => True | Err e => std_exc e = true end.

(** characters that [strip] and the underscore filter leave alone *)
Definition plain_char (c : ascii) : bool := negb (is_space c) && negb (Ascii.eqb c "_"%char).

(** the fraction and exponent parts of [repr(f)] *)
Definition frac_chars (fp : list digit) : list ascii :=
  match fp with [] => [] | _ => "."%char :: map digit_char fp end.

Definition exp_chars (ex : option (bool * digit * list digit)) : list ascii :=
  match ex with
  | None => []
  | Some (eneg, e0, es) => "e"%char :: (if eneg then "-"%char else "+"%char) :: map digit_char (e0 :: es)
  end.

(** the value [Decimal(repr(f))] denotes *)
Definition float_decimal (f : pyfloat) : decimal :=
  match f with
  | FNum neg i0 ip fp ex =>
      DFinite neg (digits_val (i0 :: ip ++ fp)) (float_exponent ex - Z.of_nat (List.length fp))
  | FInf neg => DInf neg
  | FNaN => DNaN false false 0
  end.

(** [d.get(k, default)] on a dict *)
Definition dict_get (kv : list (string * pyval)) (k : string) (d : pyval) : pyval :=
  match dict_lookup kv k with Some v => v | None => d end.
(** the keys of the follow-grid parameters *)
Definition follow_keys : list string :=
  ["follow_grid_count"; "follow_timeout"; "follow_distance"; "price_offset_grids"].
(** the events [cleanup] may record *)
Definition cleanup_event (ev : event) : bool :=
  match ev with ECleanupOnExit | ECoordStop | EMonitorStop | EDisconnect | ELogError => true | _ => false end.
Definition b2n (b : bool) : nat := if b then 1 else 0.
(** [self.exchange_adapter] is set *)
Definition has_adapter (r : Runner) : bool :=
  match exchange_adapter r with Some _ => true | None => false end.
(** an outcome that is a success or an [Exception] *)
Definition exn_res {A} (r : res A) : Prop :=
  match r with Ok _ => True | Err e => is_Exception e = true end.
(** the grid types the spot check refuses *)
Definition short_grid_type (g : GridType) : bool :=
  existsb (String.eqb (GridType_value g)) ["short"; "martingale_short"; "follow_short"].

(** every character is ASCII (code point below 128), where Python's case
    mapping is [PyStr.upper] and [PyStr.lower] *)
Definition is_ascii7 (s : string) : bool :=
  forallb (fun c => Nat.ltb (nat_of_ascii c) 128) (list_ascii_of_string s).

(* ================================================================== *)
(** * Properties *)


(** ** The market-type resolver *)

(** C3: [detect_market_type] is a total function of (symbol, exchange name)
    with two results; equal inputs give equal results; the examples of the
    specification hold; every symbol on lighter is perpetual; a hyperliquid
    symbol without any of the tags [:USDC], [:PERP], [:SPOT] is spot; and an
    exchange other than hyperliquid, backpack and lighter gives perpetual. *)
Theorem detect_market_type_spec :
  (forall s e, detect_market_type s e = SPOT \/ detect_market_type s e = PERPETUAL) /\
  (forall s e s' e', s = s' -> e = e' -> detect_market_type s e = detect_market_type s' e') /\
  detect_market_type "BTC:USDC" "hyperliquid" = PERPETUAL /\
  detect_market_type "BTC:SPOT" "hyperliquid" = SPOT /\
  detect_market_type "SOL_PERP" "backpack" = PERPETUAL /\
  (forall s, detect_market_type s "lighter" = PERPETUAL) /\
  (forall s, PyStr.contains ":USDC" (PyStr.upper s) = false ->
             PyStr.contains ":PERP" (PyStr.upper s) = false ->
             PyStr.contains ":SPOT" (PyStr.upper s) = false ->
             detect_market_type s "hyperliquid" = SPOT) /\
  (forall s e, PyStr.lower e <> "hyperliquid" -> PyStr.lower e <> "backpack" ->
               PyStr.lower e <> "lighter" -> detect_market_type s e = PERPETUAL).
Proof.
  split; [| split; [| split; [| split; [| split; [| split; [| split]]]]]].
  - intros s e. destruct (detect_market_type s e); auto.
  - intros; subst; reflexivity.
  - reflexivity.
  - reflexivity.
  - reflexivity.
  - intros s. reflexivity.
  - intros s H1 H2 H3. unfold detect_market_type. simpl.
    rewrite H1, H2, H3. reflexivity.
  - intros s e H1 H2 H3. unfold detect_market_type.
    destruct (String.eqb_spec (PyStr.lower e) "hyperliquid"); [congruence |].
    destruct (String.eqb_spec (PyStr.lower e) "backpack"); [congruence |].
    destruct (String.eqb_spec (PyStr.lower e) "lighter"); [congruence |].
    reflexivity.
Qed.

Lemma detect_market_type_spec_witness :
  detect_market_type "eth" "hyperliquid" = SPOT /\ detect_market_type "ETH" "binance" = PERPETUAL.
Proof.
  destruct detect_market_type_spec as (_ & _ & _ & _ & _ & _ & Hh & Ho).
  split.
  - apply Hh; reflexivity.
  - apply Ho; discriminate.
Defined.

(** ** The lighter connection configuration *)

(** C9: for the exchange [lighter], the configuration built for the adapter
    factory has empty [api_key] and [api_secret], whatever the resolved
    credentials, market type and files; and in [create_exchange_adapter],
    every configuration handed to the factory whose exchange id is
    [lighter] carries these empty strings. *)
Theorem lighter_config_empty_credentials :
  (forall mt c fs,
     ec_api_key (make_exchange_config "lighter" mt c fs) = PStr "" /\
     ec_api_secret (make_exchange_config "lighter" mt c fs) = PStr "") /\
  (forall w config_data st,
     forall cfg, In (ECreateAdapter cfg) (trace (snd (create_exchange_adapter w config_data st))) ->
     In (ECreateAdapter cfg) (trace st) \/
     (ec_exchange_id cfg = "lighter" -> ec_api_key cfg = PStr "" /\ ec_api_secret cfg = PStr "")).
Proof.
  assert (Hmk : forall mt c fs,
     ec_api_key (make_exchange_config "lighter" mt c fs) = PStr "" /\
     ec_api_secret (make_exchange_config "lighter" mt c fs) = PStr "").
  { intros mt c fs. unfold make_exchange_config. simpl.
    destruct (assoc fs "config/exchanges/lighter_config.yaml") as [[data|]|]; simpl; auto.
    destruct (res_bind _ _); simpl; auto. }
  split; [exact Hmk |].
  intros w config_data st cfg Hin.
  unfold create_exchange_adapter, Eff.bind, Eff.lift, Eff.ret, call, Eff.modify in Hin.
  destruct (getitem config_data "grid_system") as [gc|e]; simpl in Hin; [| now left].
  destruct (res_bind (getitem gc "exchange") (fun x => py_lower x)) as [name|e];
    simpl in Hin; [| now left].
  destruct (getitem gc "symbol") as [sym|e]; simpl in Hin; [| now left].
  destruct (res_bind (py_upper sym) _) as [mt|e]; simpl in Hin; [| now left].
  set (ec := make_exchange_config name mt (resolve_credentials name (w_env w) (w_files w)) (w_files w)) in *.
  assert (Hec : ec_exchange_id ec = "lighter" -> ec_api_key ec = PStr "" /\ ec_api_secret ec = PStr "").
  { unfold ec. destruct (String.eqb_spec name "lighter") as [->|Hne].
    - intros _. apply Hmk.
    - unfold make_exchange_config. rewrite (proj2 (String.eqb_neq _ _) Hne). simpl.
      intros Hid. congruence. }
  assert (Htr : forall ev st0, In (ECreateAdapter cfg) (trace (with_trace ev st0)) ->
                In (ECreateAdapter cfg) (trace st0) \/ ECreateAdapter cfg = ev).
  { intros ev st0. unfold with_trace; simpl. rewrite in_app_iff. simpl.
    intros [H | [H | []]]; [left; exact H | right; congruence]. }
  assert (Hstep : In (ECreateAdapter cfg) (trace (with_trace (ECreateAdapter ec) st)) ->
                  In (ECreateAdapter cfg) (trace st) \/ cfg = ec).
  { intros H. apply Htr in H. destruct H as [H | H]; [now left | right; congruence]. }
  destruct (w_factory w) as [[]|e]; cbn -[with_trace] in Hin.
  - destruct (w_connect w) as [[]|e]; cbn -[with_trace] in Hin;
      (apply Htr in Hin; destruct Hin as [Hin | Hin]; [| discriminate];
       apply Hstep in Hin; destruct Hin as [Hin | ->]; [now left | now right]).
  - apply Hstep in Hin. destruct Hin as [Hin | ->]; [now left | now right].
Qed.

(** the adapter configuration built for a lighter grid *)
Lemma lighter_config_empty_credentials_witness :
  exists cfg,
    In (ECreateAdapter cfg)
       (trace (snd (create_exchange_adapter (world_of doc_lighter true) doc_lighter init_runner))) /\
    ec_api_key cfg = PStr "" /\ ec_api_secret cfg = PStr "".
Proof.
  destruct lighter_config_empty_credentials as [_ H].
  remember (trace (snd (create_exchange_adapter (world_of doc_lighter true) doc_lighter init_runner)))
    as tr eqn:Htr.
  pose proof Htr as Hv. vm_compute in Hv.
  match type of Hv with context [ECreateAdapter ?c] =>
    exists c; assert (Hin : In (ECreateAdapter c) tr) by (rewrite Hv; simpl; auto) end.
  split; [exact Hin |].
  rewrite Htr in Hin.
  destruct (H _ _ _ _ Hin) as [Hold | Hl]; [destruct Hold | apply Hl; reflexivity].
Defined.

(** ** The spot short check *)

(** C2 (the check misses a spot market): on hyperliquid, the symbol [BTC]
    resolves to SPOT, yet a [short] grid on it passes the spot short check
    and the daemon connects to the exchange. *)
Theorem spot_short_check_misses_untagged_hyperliquid :
  detect_market_type "BTC" "hyperliquid" = SPOT /\
  In EConnect (trace (snd (run (world_of doc_short_spot true) init_runner))) /\
  fst (run (world_of doc_short_spot true) init_runner) = Ok tt.
Proof. vm_compute. auto 20. Qed.

(** ** Disconnect on the failed pre-start reserve check *)

(** C6 (a double disconnect): with a reserve manager whose start-up check
    fails, the run disconnects the exchange at line 465, [sys.exit(1)]
    raises [SystemExit], and the [finally] clause's cleanup disconnects it a
    second time. *)
Theorem reserve_check_failure_disconnects_twice :
  fst (run (world_of doc_reserve false) init_runner) = Err (SystemExit 1) /\
  count_event EConnect (trace (snd (run (world_of doc_reserve false) init_runner))) = 1%nat /\
  count_event EDisconnect (trace (snd (run (world_of doc_reserve false) init_runner))) = 2%nat.
Proof. vm_compute. auto. Qed.

(** ** Sanity checks of the conversions *)

Example detect_ex1 : detect_market_type "btc:usdc" "Hyperliquid" = PERPETUAL.
Proof. reflexivity. Qed.

Module ConvTests.
Import Py Conv.
Example str_int : py_str (PInt (-1203)) = "-1203". Proof. reflexivity. Qed.
Example dec_float : to_decimal (PFloat (FNum false D0 [] [D0; D0; D1] None))
  = Ok (PDecimal (DFinite false 1 (-3))). Proof. reflexivity. Qed.
Example dec_str : to_decimal (PStr " 1_000.5e-2 ") = Ok (PDecimal (DFinite false 10005 (-3))).
Proof. reflexivity. Qed.
Example dec_none : exists e, to_decimal PNone = Err e. Proof. eexists. reflexivity. Qed.
Example dec_true : exists e, to_decimal (PBool true) = Err e. Proof. eexists. reflexivity. Qed.
Example dec_dot : parse_decimal "." = None. Proof. reflexivity. Qed.
Example dec_nan : parse_decimal "-sNaN12" = Some (DNaN true true 12). Proof. reflexivity. Qed.
Example dec_str1 : decimal_str (DFinite false 12345 (-7)) = "0.0012345". Proof. reflexivity. Qed.
Example dec_str2 : decimal_str (DFinite true 1 10) = "-1E+10". Proof. reflexivity. Qed.
Example dec_str3 : decimal_str (DFinite false 123 (-10)) = "1.23E-8". Proof. reflexivity. Qed.
Example int_s : py_int (PStr " -1_0 ") = Ok (-10)%Z. Proof. reflexivity. Qed.
Example int_f : py_int (PFloat (FNum true D2 [] [D7] None)) = Ok (-2)%Z. Proof. reflexivity. Qed.
End ConvTests.

Module TranslatorTests.
Import Py Conv Translator.
Example t1 : option_map (fun c => (attr c "max_position", attr c "lower_price", attr c "leverage"))
  (match create_grid_config doc_long with Ok c => Some c | Err _ => None end)
  = Some (Some PNone, Some (PDecimal (DFinite false 90000 0)), Some (PInt 5)).
Proof. reflexivity. Qed.
End TranslatorTests.

(** ** The cleanup sequence *)

Lemma count_event_app ev l1 l2 :
  count_event ev (l1 ++ l2) = (count_event ev l1 + count_event ev l2)%nat.
Proof. unfold count_event. rewrite filter_app, length_app. reflexivity. Qed.

Ltac res_cases o :=
  let e := fresh "e" in
  let He := fresh "He" in
  destruct o as [[]|e]; [| destruct (is_Exception e) eqn:He].




(** ** The statistics reporter *)

Lemma cycle_body_read (c : Stats.Cycle) k :
  In (Stats.SRead k) (fst (Stats.cycle_body c)) -> Stats.c_coordinator c = Some k.
Proof.
  unfold Stats.cycle_body.
  destruct (Stats.c_sleep c); simpl; [| intuition discriminate].
  destruct (Stats.c_coordinator c) as [k'|]; simpl; [| intuition discriminate].
  destruct (Stats.c_stats c), (Stats.c_report c); simpl; intuition congruence.
Qed.

(** C7: in [print_statistics], an ordinary exception raised in a turn is
    logged and the loop goes on with the next turn; a statistics snapshot is
    read only from a coordinator present in that turn; once the loop sees
    [self._running] cleared it schedules no further turn; and the loop ends
    with an exception only for one that [except Exception] does not catch
    (the task's cancellation). *)
Theorem print_statistics_resilient :
  (forall c rest evs e,
     Stats.c_running c = true -> Stats.cycle_body c = (evs, Err e) -> is_Exception e = true ->
     Stats.print_statistics (c :: rest) =
       ((evs ++ [Stats.SLogError]) :: fst (Stats.print_statistics rest),
        snd (Stats.print_statistics rest))) /\
  (forall cs i evs k,
     nth_error (fst (Stats.print_statistics cs)) i = Some evs -> In (Stats.SRead k) evs ->
     exists c, nth_error cs i = Some c /\ Stats.c_running c = true /\
               Stats.c_coordinator c = Some k) /\
  (forall c rest, Stats.c_running c = false ->
     Stats.print_statistics (c :: rest) = ([], Stats.LoopExit)) /\
  (forall cs e, snd (Stats.print_statistics cs) = Stats.LoopRaise e -> is_Exception e = false).
Proof.
  split; [| split; [| split]].
  - intros c rest evs e Hr Hb He. simpl. rewrite Hr, Hb. simpl. rewrite He.
    destruct (Stats.print_statistics rest); reflexivity.
  - induction cs as [|c rest IH]; intros i evs k Hn Hin.
    + simpl in Hn. destruct i; discriminate.
    + simpl in Hn. destruct (Stats.c_running c) eqn:Hr; simpl in Hn;
        [| destruct i; discriminate].
      destruct (Stats.cycle_body c) as [cevs r] eqn:Hb.
      assert (Hread : In (Stats.SRead k) cevs -> Stats.c_coordinator c = Some k).
      { intros H. apply cycle_body_read. rewrite Hb. exact H. }
      destruct r as [u|e].
      * destruct (Stats.print_statistics rest) as [t o] eqn:Hp. destruct i as [|i]; simpl in Hn.
        -- inversion Hn; subst. exists c. auto.
        -- destruct (IH i evs k) as (c' & ? & ? & ?); [exact Hn | exact Hin |].
           exists c'. auto.
      * destruct (is_Exception e).
        -- destruct (Stats.print_statistics rest) as [t o] eqn:Hp. destruct i as [|i]; simpl in Hn.
           ++ inversion Hn; subst. exists c. split; [reflexivity | split; [exact Hr |]].
              apply Hread. apply in_app_or in Hin. destruct Hin as [Hin | [Hin | []]];
                [exact Hin | discriminate].
           ++ destruct (IH i evs k) as (c' & ? & ? & ?); [exact Hn | exact Hin |].
              exists c'. auto.
        -- destruct i as [|[|i]]; simpl in Hn; try discriminate.
           inversion Hn; subst. exists c. auto.
  - intros c rest Hr. simpl. rewrite Hr. reflexivity.
  - induction cs as [|c rest IH]; intros e H; simpl in H; [discriminate |].
    destruct (Stats.c_running c); simpl in H; [| discriminate].
    destruct (Stats.cycle_body c) as [cevs [u|e']].
    + destruct (Stats.print_statistics rest) as [t o] eqn:Hp. simpl in H.
      apply IH. exact H.
    + destruct (is_Exception e') eqn:He.
      * destruct (Stats.print_statistics rest) as [t o] eqn:Hp. simpl in H.
        apply IH. exact H.
      * simpl in H. inversion H; subst. exact He.
Qed.

(** a turn whose snapshot read fails, then a turn with the flag cleared *)
Lemma print_statistics_resilient_witness :
  Stats.print_statistics
    [Stats.mkCycle true (Ok tt) (Some 0%nat) (Err (PyExc "AttributeError" "x")) (Ok tt);
     Stats.mkCycle false (Ok tt) (Some 0%nat) (Ok tt) (Ok tt)]
  = ([[Stats.SSleep; Stats.SRead 0; Stats.SLogError]], Stats.LoopExit).
Proof.
  destruct print_statistics_resilient as (Hexc & _ & Hstop & _).
  rewrite (Hexc _ _ [Stats.SSleep; Stats.SRead 0] (PyExc "AttributeError" "x"));
    [| reflexivity | reflexivity | reflexivity].
  rewrite (Hstop _ []); reflexivity.
Defined.

(** ** The signal bridge *)

Lemma sig_inv_step s st : sig_inv s -> sig_inv (Signal.do_step s st).
Proof.
  destruct s as [v t c ph l]. unfold sig_inv; simpl. intros [Ht Hc].
  destruct st as [n|ok]; simpl.
  - unfold Signal.handle_signal, Signal.event_set; simpl.
    destruct v; simpl; subst; auto.
  - unfold Signal.main_step; simpl.
    destruct ph; simpl.
    + destruct ok; unfold Signal.run_cleanup; simpl; subst; auto.
    + destruct v; unfold Signal.run_cleanup; simpl; subst; auto.
    + subst; auto.
Qed.

Lemma sig_inv_exec_from l s : sig_inv s -> sig_inv (fold_left Signal.do_step l s).
Proof.
  revert s; induction l as [|st l IH]; intros s H; simpl; auto.
  apply IH, sig_inv_step, H.
Qed.

Lemma ev_value_step s st : Signal.ev_value s = true -> Signal.ev_value (Signal.do_step s st) = true.
Proof.
  destruct s as [v t c ph l]; simpl; intros ->.
  destruct st as [n|ok]; simpl; [reflexivity |].
  unfold Signal.main_step; simpl. destruct ph; [destruct ok | |]; reflexivity.
Qed.

Lemma ev_value_exec_from l s :
  Signal.ev_value s = true -> Signal.ev_value (fold_left Signal.do_step l s) = true.
Proof.
  revert s; induction l as [|st l IH]; intros s H; simpl; auto.
  apply IH, ev_value_step, H.
Qed.

Lemma ev_value_signal l s :
  (Signal.signal_count l >= 1)%nat -> Signal.ev_value (fold_left Signal.do_step l s) = true.
Proof.
  unfold Signal.signal_count.
  revert s; induction l as [|st l IH]; intros s H; simpl in *; [lia |].
  destruct st as [n|ok].
  - apply ev_value_exec_from. unfold Signal.do_step, Signal.handle_signal, Signal.event_set.
    simpl. destruct (Signal.ev_value s); reflexivity.
  - apply IH. exact H.
Qed.

(** C8: [handle_signal] is idempotent. Over any interleaving of signal
    deliveries with the steps of the main task: the shutdown event goes from
    unset to set at most once, and exactly once when a signal was delivered;
    the cleanup runs at most once, and exactly once when the main task has
    finished; and a signal delivered when the event is already set changes
    nothing but the log. *)
Theorem handle_signal_idempotent :
  (forall sched,
     (Signal.set_transitions (Signal.exec sched) <= 1)%nat /\
     (Signal.cleanups (Signal.exec sched) <= 1)%nat /\
     ((Signal.signal_count sched >= 1)%nat ->
        Signal.ev_value (Signal.exec sched) = true /\
        Signal.set_transitions (Signal.exec sched) = 1%nat) /\
     (Signal.main_phase (Signal.exec sched) = Signal.Finished ->
        Signal.cleanups (Signal.exec sched) = 1%nat)) /\
  (forall n s, Signal.ev_value s = true ->
     Signal.handle_signal n s =
       Signal.mkSig (Signal.ev_value s) (Signal.set_transitions s) (Signal.cleanups s)
                    (Signal.main_phase s) (S (Signal.logs s))).
Proof.
  split.
  - intros sched.
    assert (Hinv : sig_inv (Signal.exec sched)).
    { unfold Signal.exec. apply sig_inv_exec_from. split; reflexivity. }
    destruct Hinv as [Ht Hc].
    split; [rewrite Ht; destruct (Signal.ev_value _); lia |].
    split; [rewrite Hc; destruct (Signal.main_phase _); lia |].
    split.
    + intros Hs. assert (Hv : Signal.ev_value (Signal.exec sched) = true)
        by (apply ev_value_signal; exact Hs).
      split; [exact Hv | rewrite Ht, Hv; reflexivity].
    + intros Hf. rewrite Hc, Hf. reflexivity.
  - intros n [v t c ph l]; simpl; intros ->. reflexivity.
Qed.

(** two SIGTERMs around the main task reaching the wait *)
Lemma handle_signal_idempotent_witness :
  Signal.set_transitions (Signal.exec [Signal.Sig 15; Signal.Main true; Signal.Sig 15; Signal.Main true]) = 1%nat /\
  Signal.cleanups (Signal.exec [Signal.Sig 15; Signal.Main true; Signal.Sig 15; Signal.Main true]) = 1%nat.
Proof.
  destruct handle_signal_idempotent as [H _].
  destruct (H [Signal.Sig 15; Signal.Main true; Signal.Sig 15; Signal.Main true]%Z)
    as (_ & _ & Hs & Hf).
  split; [apply Hs; vm_compute; lia | apply Hf; reflexivity].
Defined.


(** ** Credential resolution *)






(** ** The configuration translator *)

Lemma bind_std {A B} (m : res A) (k : A -> res B) :
  ok_or_std m -> (forall a, ok_or_std (k a)) -> ok_or_std (res_bind m k).
Proof. destruct m; simpl; auto. Qed.

Lemma getitem_std v k : ok_or_std (getitem v k).
Proof. destruct v; simpl; try reflexivity. destruct (dict_lookup _ k); reflexivity. Qed.

Lemma get_std v k d : ok_or_std (get v k d).
Proof. destruct v; simpl; try reflexivity. destruct (dict_lookup _ k); reflexivity. Qed.

Lemma contains_key_std k v : ok_or_std (contains_key k v).
Proof. destruct v; reflexivity. Qed.

Lemma GridType_of_std v : ok_or_std (GridType_of v).
Proof. unfold GridType_of. destruct v; try reflexivity. destruct (find _ _); reflexivity. Qed.

Lemma to_decimal_std v : ok_or_std (to_decimal v).
Proof. unfold to_decimal, py_Decimal. destruct (parse_decimal _); reflexivity. Qed.

Lemma int_of_std v : ok_or_std (int_of v).
Proof.
  unfold int_of, py_int. destruct v as [|b|z|f|s|l|kv|d|g]; try reflexivity.
  - destruct f; reflexivity.
  - destruct (take_sign _) as [n r]. destruct (int_body r); reflexivity.
  - destruct d; reflexivity.
Qed.

Lemma apply_conv_std c v : ok_or_std (apply_conv c v).
Proof. destruct c; simpl; auto using to_decimal_std, int_of_std. Qed.

Create HintDb std.
#[local] Hint Resolve bind_std getitem_std get_std contains_key_std GridType_of_std to_decimal_std
  int_of_std apply_conv_std : std.

Ltac std_binds :=
  repeat (cbv zeta; apply bind_std; [solve [auto with std] | intros]).

Lemma max_position_of_std gc : ok_or_std (max_position_of gc).
Proof.
  unfold max_position_of. std_binds. destruct (truthy _); [std_binds | exact I].
  auto with std.
Qed.

#[local] Hint Resolve max_position_of_std : std.

Lemma base_params_std gc g : ok_or_std (base_params gc g).
Proof. unfold base_params. std_binds. exact I. Qed.

Lemma range_params_std gc g p : ok_or_std (range_params gc g p).
Proof. unfold range_params. destruct (is_follow g); std_binds; exact I. Qed.

Lemma copy_optional_std gc fs p : ok_or_std (copy_optional gc fs p).
Proof.
  revert p; induction fs as [|[k c] fs IH]; intros p; simpl; [exact I |].
  apply bind_std; [auto with std | intros [|]]; [| apply IH].
  std_binds. apply IH.
Qed.

#[local] Hint Resolve base_params_std range_params_std copy_optional_std : std.

Lemma create_grid_config_std doc : ok_or_std (create_grid_config doc).
Proof. unfold create_grid_config, make_GridConfig. std_binds. exact I. Qed.

Lemma dict_lookup_set_eq p k v : dict_lookup (dict_set p k v) k = Some v.
Proof.
  induction p as [|[k' v'] r IH]; simpl; [rewrite String.eqb_refl; reflexivity |].
  destruct (String.eqb k k') eqn:E; simpl; [rewrite String.eqb_refl | rewrite E]; auto.
Qed.

Lemma dict_lookup_set_neq p k k' v :
  String.eqb k' k = false -> dict_lookup (dict_set p k v) k' = dict_lookup p k'.
Proof.
  intros Hne. induction p as [|[k0 v0] r IH]; simpl; [rewrite Hne; reflexivity |].
  destruct (String.eqb k k0) eqn:E; simpl.
  - apply String.eqb_eq in E; subst k0. rewrite Hne. reflexivity.
  - rewrite IH. reflexivity.
Qed.

Lemma res_bind_Ok {A B} (m : res A) (k : A -> res B) b :
  res_bind m k = Ok b -> exists a, m = Ok a /\ k a = Ok b.
Proof. destruct m as [a|e]; cbn; [eauto | discriminate]. Qed.

Ltac res_inv :=
  repeat match goal with
         | H : res_bind ?m ?k = Ok _ |- _ =>
             let E := fresh "E" in let a := fresh "a" in let H' := fresh "H" in
             destruct (res_bind_Ok m k _ H) as (a & E & H'); clear H; cbv beta zeta in H'
         end.

Lemma copy_optional_keeps gc fs p p' k :
  copy_optional gc fs p = Ok p' -> existsb (String.eqb k) (map fst fs) = false ->
  dict_lookup p' k = dict_lookup p k.
Proof.
  revert p; induction fs as [|[k0 c] fs IH]; intros p H Hn; simpl in *.
  - injection H as <-. reflexivity.
  - apply orb_false_iff in Hn as [H1 H2].
    destruct (contains_key k0 gc) as [[|]|e]; cbn [res_bind] in H; [| | discriminate].
    + res_inv. rewrite (IH _ H H2). apply dict_lookup_set_neq. exact H1.
    + exact (IH _ H H2).
Qed.

Lemma base_params_grid_type gc g p :
  base_params gc g = Ok p -> dict_lookup p "grid_type" = Some (PGridType g).
Proof. unfold base_params. intros H. res_inv. injection H as <-. reflexivity. Qed.

Lemma to_decimal_ok v x : to_decimal v = Ok x -> exists d, x = PDecimal d.
Proof.
  unfold to_decimal, py_Decimal. destruct (parse_decimal _); cbn; [| discriminate].
  intros H; injection H as <-. eexists; reflexivity.
Qed.

Lemma range_params_ok gc g p p' :
  range_params gc g p = Ok p' ->
  dict_lookup p' "grid_type" = dict_lookup p "grid_type" /\
  (is_follow g = true -> exists v, getitem gc "follow_grid_count" = Ok v /\
                                   dict_lookup p' "follow_grid_count" = Some v) /\
  (is_follow g = false -> exists r lo hi dlo dhi,
     getitem gc "price_range" = Ok r /\ getitem r "lower_price" = Ok lo /\
     getitem r "upper_price" = Ok hi /\
     to_decimal lo = Ok (PDecimal dlo) /\ to_decimal hi = Ok (PDecimal dhi) /\
     dict_lookup p' "lower_price" = Some (PDecimal dlo) /\
     dict_lookup p' "upper_price" = Some (PDecimal dhi)).
Proof.
  unfold range_params. destruct (is_follow g) eqn:Hf; intros H; res_inv.
  - injection H as <-.
    split; [repeat rewrite dict_lookup_set_neq by reflexivity; reflexivity |].
    split; [| discriminate].
    intros _. eexists; split; [exact E |].
    repeat rewrite dict_lookup_set_neq by reflexivity. apply dict_lookup_set_eq.
  - injection H as <-. cbv zeta in *. res_inv.
    repeat match goal with
           | H1 : getitem gc "price_range" = Ok ?x, H2 : getitem gc "price_range" = Ok ?y |- _ =>
               assert_fails (constr_eq x y); rewrite H1 in H2; injection H2 as H2; subst
           end.
    repeat match goal with
           | H : to_decimal _ = Ok ?x |- _ => is_var x; destruct (to_decimal_ok _ _ H) as [? ->]
           end.
    split; [repeat rewrite dict_lookup_set_neq by reflexivity; reflexivity |].
    split; [discriminate |].
    intros _. do 5 eexists.
    repeat split; try eassumption.
    + rewrite dict_lookup_set_neq by reflexivity. apply dict_lookup_set_eq.
    + apply dict_lookup_set_eq.
Qed.

(** C4 (counterexample): a long grid without a price range and a follow
    grid without a follow-count both fail with a plain [KeyError], raised
    while the parameters are read and before [GridConfig] is called; the
    code defines no [ConfigValidationError]. *)
Lemma create_grid_config_no_validation_error :
  create_grid_config doc_long_no_range = Err (PyExc "KeyError" "price_range") /\
  create_grid_config doc_follow_no_count = Err (PyExc "KeyError" "follow_grid_count").
Proof. split; vm_compute; reflexivity. Qed.

(** C4 (amended): when [create_grid_config] returns a configuration, its
    [grid_type] is the tag read from [grid_system]; for follow_long and
    follow_short it carries [follow_grid_count] as read from the document;
    for every other type it carries [lower_price] and [upper_price] as
    decimals converted from [price_range]. When a recognised tag and the
    base parameters have been read, a missing required key raises a
    [KeyError] naming it before [GridConfig] is called: [follow_grid_count]
    for the follow types, [price_range], [lower_price] or [upper_price] for
    the others. *)
Theorem create_grid_config_required_fields (doc : pyval) :
  (forall c, create_grid_config doc = Ok c ->
     exists gc tag g,
       getitem doc "grid_system" = Ok gc /\ getitem gc "grid_type" = Ok tag /\
       GridType_of tag = Ok g /\ attr c "grid_type" = Some (PGridType g) /\
       (is_follow g = true -> exists v, getitem gc "follow_grid_count" = Ok v /\
                                        attr c "follow_grid_count" = Some v) /\
       (is_follow g = false -> exists r lo hi dlo dhi,
          getitem gc "price_range" = Ok r /\ getitem r "lower_price" = Ok lo /\
          getitem r "upper_price" = Ok hi /\
          to_decimal lo = Ok (PDecimal dlo) /\ to_decimal hi = Ok (PDecimal dhi) /\
          attr c "lower_price" = Some (PDecimal dlo) /\
          attr c "upper_price" = Some (PDecimal dhi))) /\
  (forall gkv tag g p, getitem doc "grid_system" = Ok (PDict gkv) ->
     dict_lookup gkv "grid_type" = Some tag -> GridType_of tag = Ok g ->
     base_params (PDict gkv) g = Ok p ->
     (is_follow g = true -> dict_lookup gkv "follow_grid_count" = None ->
        create_grid_config doc = Err (PyExc "KeyError" "follow_grid_count")) /\
     (is_follow g = false -> dict_lookup gkv "price_range" = None ->
        create_grid_config doc = Err (PyExc "KeyError" "price_range")) /\
     (forall r, is_follow g = false -> dict_lookup gkv "price_range" = Some (PDict r) ->
        dict_lookup r "lower_price" = None ->
        create_grid_config doc = Err (PyExc "KeyError" "lower_price")) /\
     (forall r lo d, is_follow g = false -> dict_lookup gkv "price_range" = Some (PDict r) ->
        dict_lookup r "lower_price" = Some lo -> to_decimal lo = Ok d ->
        dict_lookup r "upper_price" = None ->
        create_grid_config doc = Err (PyExc "KeyError" "upper_price"))).
Proof.
  split.
  - intros c H. unfold create_grid_config, make_GridConfig in H. res_inv.
    injection H as <-.
    rename a into gc, a0 into tag, a1 into g, a2 into p0, a3 into p1, a4 into p2.
    destruct (range_params_ok _ _ _ _ E3) as (Hg & Hfo & Hpr).
    exists gc, tag, g. unfold attr; cbn [gc_fields].
    split; [exact E |]. split; [exact E0 |]. split; [exact E1 |].
    split; [rewrite (copy_optional_keeps _ _ _ _ _ E4) by reflexivity;
            rewrite Hg; exact (base_params_grid_type _ _ _ E2) |].
    split.
    + intros Hf. destruct (Hfo Hf) as (v & Hv & Hl). exists v. split; [exact Hv |].
      rewrite (copy_optional_keeps _ _ _ _ _ E4) by reflexivity. exact Hl.
    + intros Hf. destruct (Hpr Hf) as (r & lo & hi & dlo & dhi & H1 & H2 & H3 & H4 & H5 & H6 & H7).
      exists r, lo, hi, dlo, dhi.
      split; [exact H1 |]. split; [exact H2 |]. split; [exact H3 |].
      split; [exact H4 |]. split; [exact H5 |].
      split; rewrite (copy_optional_keeps _ _ _ _ _ E4) by reflexivity; assumption.
  - intros gkv tag g p Hs Ht Hg Hb.
    unfold create_grid_config. rewrite Hs. unfold getitem; cbn [res_bind]. rewrite Ht.
    cbn [res_bind]. rewrite Hg. cbn [res_bind]. rewrite Hb. cbn [res_bind].
    unfold range_params. split; [| split; [| split]].
    + intros Hf Hn. rewrite Hf. unfold getitem; cbn [res_bind]. rewrite Hn. reflexivity.
    + intros Hf Hn. rewrite Hf. unfold getitem; cbn [res_bind]. rewrite Hn. reflexivity.
    + intros r Hf Hr Hn. rewrite Hf. unfold getitem; cbn [res_bind]. rewrite Hr.
      unfold getitem; cbn [res_bind]. rewrite Hn. reflexivity.
    + intros r lo d Hf Hr Hl Hd Hn. rewrite Hf. unfold getitem; cbn [res_bind]. rewrite Hr.
      unfold getitem; cbn [res_bind]. rewrite Hl. cbn [res_bind]. rewrite Hd. unfold getitem; cbn [res_bind].
      rewrite Hn. reflexivity.
Qed.

(** the long grid of [Scenarios] translated *)
Lemma create_grid_config_required_fields_witness :
  match create_grid_config (grid_doc "hyperliquid" "BTC" "long" []) with
  | Ok c => exists d, attr c "lower_price" = Some (PDecimal d)
  | Err _ => False
  end /\
  create_grid_config doc_follow_no_count = Err (PyExc "KeyError" "follow_grid_count").
Proof.
  split; cycle 1.
  { destruct (create_grid_config_required_fields doc_follow_no_count) as [_ H2].
    destruct (H2 _ _ FOLLOW_LONG _ eq_refl eq_refl eq_refl eq_refl) as [Hf _].
    apply Hf; reflexivity. }
  destruct (create_grid_config_required_fields (grid_doc "hyperliquid" "BTC" "long" [])) as [H _].
  destruct (create_grid_config (grid_doc "hyperliquid" "BTC" "long" [])) as [c|e] eqn:E;
    [| vm_compute in E; discriminate].
  destruct (H c eq_refl) as (gc & tag & g & Hgc & Htag & Hg & _ & _ & Hpr).
  vm_compute in Hgc; injection Hgc as <-.
  vm_compute in Htag; injection Htag as <-.
  vm_compute in Hg; injection Hg as <-.
  destruct (Hpr eq_refl) as (r & lo & hi & dlo & dhi & _ & _ & _ & _ & _ & Hlo & _).
  exists dlo; exact Hlo.
Defined.


(** ** [max_position]: [Decimal(str(v)) if v else None] *)

Lemma las_app (s1 s2 : string) :
  list_ascii_of_string (s1 ++ s2)%string = list_ascii_of_string s1 ++ list_ascii_of_string s2.
Proof. induction s1 as [|c s1 IH]; simpl; [reflexivity | rewrite IH; reflexivity]. Qed.

Lemma las_digits ds : list_ascii_of_string (digits_str ds) = map digit_char ds.
Proof. unfold digits_str. apply list_ascii_of_string_of_list_ascii. Qed.

Lemma drop_spaces_id l : forallb (fun c => negb (is_space c)) l = true -> drop_spaces l = l.
Proof.
  destruct l as [|c l]; simpl; [reflexivity |].
  intros H. apply andb_true_iff in H as [H _]. destruct (is_space c); [discriminate | reflexivity].
Qed.

Lemma clean_id l :
  forallb plain_char l = true ->
  filter (fun c => negb (Ascii.eqb c "_"%char)) (strip l) = l.
Proof.
  intros H. rewrite forallb_forall in H.
  assert (Hs : forall l', incl l' l -> forallb (fun c => negb (is_space c)) l' = true).
  { intros l' Hi. apply forallb_forall. intros x Hx.
    specialize (H x (Hi x Hx)). unfold plain_char in H. apply andb_true_iff in H as [H _]. exact H. }
  unfold strip. rewrite (drop_spaces_id l) by (apply Hs; intros x Hx; exact Hx).
  rewrite drop_spaces_id, rev_involutive.
  - clear Hs. induction l as [|c l IH]; simpl; [reflexivity |].
    assert (Hc := H c (or_introl eq_refl)). unfold plain_char in Hc.
    apply andb_true_iff in Hc as [_ Hc]. rewrite Hc, IH; [reflexivity |].
    intros x Hx. apply H. right. exact Hx.
  - apply Hs. intros x Hx. apply in_rev in Hx. exact Hx.
Qed.

Lemma plain_digits ds : forallb plain_char (map digit_char ds) = true.
Proof.
  apply forallb_forall. intros x Hx. apply in_map_iff in Hx as (d & <- & _).
  destruct d; reflexivity.
Qed.

Lemma span_digits_map ds rest :
  match rest with c :: _ => char_digit c = None | [] => True end ->
  span_digits (map digit_char ds ++ rest) = (ds, rest).
Proof.
  intros Hr. induction ds as [|d ds IH]; simpl.
  - destruct rest as [|c r]; [reflexivity |]. simpl. rewrite Hr. reflexivity.
  - rewrite IH. destruct d; reflexivity.
Qed.

Lemma fold_shift l a :
  fold_left (fun acc d => (10 * acc + digit_val d)%N) l a =
  (a * 10 ^ N.of_nat (List.length l) + fold_left (fun acc d => (10 * acc + digit_val d)%N) l 0)%N.
Proof.
  revert a; induction l as [|d l IH]; intros a; cbn [fold_left List.length].
  - simpl. lia.
  - rewrite (IH (10 * a + digit_val d)%N), (IH (10 * 0 + digit_val d)%N).
    rewrite Nat2N.inj_succ, N.pow_succ_r'. ring.
Qed.

Lemma digit_of_N_val m : (m < 10)%N -> digit_val (digit_of_N m) = m.
Proof.
  intros H.
  assert (m = 0 \/ m = 1 \/ m = 2 \/ m = 3 \/ m = 4 \/ m = 5 \/ m = 6 \/ m = 7 \/ m = 8 \/ m = 9)%N
    as Hm by lia.
  repeat destruct Hm as [-> | Hm]; try reflexivity. subst m. reflexivity.
Qed.

Lemma digits_of_N_aux_val f n acc :
  (n < 10 ^ N.of_nat f)%N ->
  digits_val (digits_of_N_aux f n acc) = (n * 10 ^ N.of_nat (List.length acc) + digits_val acc)%N.
Proof.
  revert n acc; induction f as [|f IH]; intros n acc H.
  - simpl in H. assert (n = 0%N) by lia. subst n. simpl. reflexivity.
  - assert (Hmod : (n mod 10 < 10)%N) by (apply N.mod_lt; discriminate).
    assert (Hdm : n = (10 * (n / 10) + n mod 10)%N) by (apply N.div_mod; discriminate).
    assert (Hcons : forall d, digits_val (d :: acc) =
              (digit_val d * 10 ^ N.of_nat (List.length acc) + digits_val acc)%N).
    { intros d. unfold digits_val. cbn [fold_left]. rewrite fold_shift. f_equal. }
    cbn [digits_of_N_aux]. destruct (n <? 10)%N eqn:Hlt.
    + apply N.ltb_lt in Hlt. rewrite Hcons.
      rewrite N.mod_small by exact Hlt. rewrite digit_of_N_val by exact Hlt. reflexivity.
    + rewrite IH.
      * rewrite Hcons, digit_of_N_val by exact Hmod.
        cbn [List.length]. rewrite Nat2N.inj_succ, N.pow_succ_r'.
        set (q := (n / 10)%N) in *. set (r := (n mod 10)%N) in *.
        rewrite Hdm. ring.
      * rewrite Nat2N.inj_succ, N.pow_succ_r' in H.
        apply N.Div0.div_lt_upper_bound. exact H.
Qed.

Lemma digits_of_N_val n : digits_val (digits_of_N n) = n.
Proof.
  unfold digits_of_N. rewrite digits_of_N_aux_val.
  - change (N.of_nat (List.length (@nil digit))) with 0%N. rewrite N.pow_0_r.
    unfold digits_val. cbn [fold_left]. lia.
  - rewrite Nat2N.inj_succ, N2Nat.id.
    destruct (N.eq_dec n 0) as [-> | Hn]; [apply N.neq_0_lt_0; apply N.pow_nonzero; discriminate |].
    apply N.lt_le_trans with (2 ^ N.succ (N.log2 n))%N.
    + apply N.log2_spec. lia.
    + apply N.pow_le_mono_l. lia.
Qed.

Lemma digits_of_N_aux_nonempty f n acc : acc <> [] -> digits_of_N_aux f n acc <> [].
Proof.
  revert n acc; induction f as [|f IH]; intros n acc H; simpl; [exact H |].
  destruct (n <? 10)%N; [discriminate | apply IH; discriminate].
Qed.

Lemma digits_of_N_cons n : exists d ds, digits_of_N n = d :: ds.
Proof.
  assert (H : digits_of_N n <> []).
  { unfold digits_of_N. cbn [digits_of_N_aux].
    destruct (n <? 10)%N; [discriminate | apply digits_of_N_aux_nonempty; discriminate]. }
  destruct (digits_of_N n) as [|d ds]; [contradiction | eauto].
Qed.

(** a literal that starts with a digit, after an optional minus sign, is a
    finite number *)
Lemma parse_decimal_finite (s : string) (neg : bool) (d : digit) (rest : list ascii) :
  list_ascii_of_string s = (if neg then ["-"%char] else []) ++ digit_char d :: rest ->
  forallb plain_char rest = true ->
  parse_decimal s = parse_finite neg (digit_char d :: rest).
Proof.
  intros Hs Hok. unfold parse_decimal. rewrite Hs.
  rewrite clean_id by (destruct neg, d; exact Hok).
  destruct neg, d; reflexivity.
Qed.

Lemma parse_finite_digits neg ds :
  ds <> [] -> parse_finite neg (map digit_char ds) = Some (DFinite neg (digits_val ds) 0).
Proof.
  intros Hne. unfold parse_finite.
  rewrite <- (app_nil_r (map digit_char ds)), span_digits_map by exact I.
  rewrite app_nil_r. destruct ds as [|d ds]; [contradiction | reflexivity].
Qed.

(** [Decimal(str(z))] is [z] *)
Lemma to_decimal_int z : to_decimal (PInt z) = Ok (PDecimal (DFinite (z <? 0)%Z (Z.abs_N z) 0)).
Proof.
  unfold to_decimal, py_Decimal. cbn [py_str py_repr].
  destruct (digits_of_N_cons (Z.abs_N z)) as (d & ds & Hd).
  rewrite (parse_decimal_finite _ (z <? 0)%Z d (map digit_char ds)).
  - change (digit_char d :: map digit_char ds) with (map digit_char (d :: ds)).
    rewrite parse_finite_digits by discriminate. rewrite <- Hd, digits_of_N_val. reflexivity.
  - unfold int_str. rewrite las_app, las_digits, Hd. destruct (z <? 0)%Z; reflexivity.
  - apply plain_digits.
Qed.

Lemma float_str_chars neg i0 ip fp ex :
  list_ascii_of_string (float_str (FNum neg i0 ip fp ex)) =
  (if neg then ["-"%char] else []) ++ digit_char i0 :: map digit_char ip ++ frac_chars fp ++ exp_chars ex.
Proof.
  unfold float_str. rewrite !las_app, las_digits.
  f_equal; [destruct neg; reflexivity |]. simpl. f_equal. f_equal. f_equal.
  - destruct fp as [|f fp]; [reflexivity |]. cbn [list_ascii_of_string append]. rewrite las_digits. reflexivity.
  - destruct ex as [[[eneg e0] es]|]; [| reflexivity].
    cbn [list_ascii_of_string append]. rewrite las_app, las_digits. destruct eneg; reflexivity.
Qed.

Lemma parse_exponent_chars ex : parse_exponent (exp_chars ex) = Some (float_exponent ex).
Proof.
  destruct ex as [[[eneg e0] es]|]; [| reflexivity].
  unfold exp_chars, parse_exponent.
  replace (Ascii.eqb (PyStr.lower_char "e") "e") with true by reflexivity.
  rewrite <- (app_nil_r (map digit_char (e0 :: es))).
  destruct eneg; cbn [take_sign]; rewrite span_digits_map by exact I; reflexivity.
Qed.

(** [Decimal(str(f))] is the number [repr(f)] spells *)
Lemma to_decimal_float f : to_decimal (PFloat f) = Ok (PDecimal (float_decimal f)).
Proof.
  unfold to_decimal, py_Decimal. cbn [py_str py_repr].
  destruct f as [neg i0 ip fp ex | neg |]; [| destruct neg; reflexivity | reflexivity].
  assert (Hexp : forallb plain_char (exp_chars ex) = true).
  { destruct ex as [[[eneg e0] es]|]; [| reflexivity].
    cbn [exp_chars forallb]. rewrite plain_digits. destruct eneg; reflexivity. }
  assert (Hexp_head : match exp_chars ex with c :: _ => char_digit c = None | [] => True end).
  { destruct ex as [[[? ?] ?]|]; exact I + reflexivity. }
  rewrite (parse_decimal_finite _ neg i0 (map digit_char ip ++ frac_chars fp ++ exp_chars ex)).
  - change (digit_char i0 :: map digit_char ip ++ frac_chars fp ++ exp_chars ex)
      with (map digit_char (i0 :: ip) ++ frac_chars fp ++ exp_chars ex).
    unfold parse_finite. rewrite span_digits_map.
    + destruct fp as [|f fp].
      * rewrite app_nil_l.
        replace ((i0 :: ip) ++ []) with (i0 :: ip ++ []) by reflexivity.
        cbv iota beta zeta.
        replace (match exp_chars ex with "."%char :: r2 => span_digits r2 | _ => ([], exp_chars ex) end)
          with (@nil digit, exp_chars ex)
          by (destruct ex as [[[? ?] ?]|]; reflexivity).
        cbv iota beta zeta. rewrite parse_exponent_chars. simpl. rewrite Z.sub_0_r. reflexivity.
      * cbn [frac_chars app]. rewrite span_digits_map by exact Hexp_head.
        cbv iota beta zeta. simpl app. rewrite parse_exponent_chars. reflexivity.
    + destruct fp; [exact Hexp_head | reflexivity].
  - apply float_str_chars.
  - rewrite !forallb_app, plain_digits, Hexp.
    destruct fp as [|f fp]; [reflexivity |]. cbn [frac_chars forallb]. rewrite plain_digits. reflexivity.
Qed.

Lemma base_params_max_position gc g p :
  base_params gc g = Ok p -> exists x, max_position_of gc = Ok x /\ dict_lookup p "max_position" = Some x.
Proof.
  unfold base_params. intros H. res_inv. injection H as <-.
  eexists. split; [eassumption | reflexivity].
Qed.

Lemma range_params_max_position gc g p p' :
  range_params gc g p = Ok p' -> dict_lookup p' "max_position" = dict_lookup p "max_position".
Proof.
  unfold range_params. destruct (is_follow g); intros H; res_inv; cbv zeta in *; res_inv;
    injection H as <-; repeat rewrite dict_lookup_set_neq by reflexivity; reflexivity.
Qed.

(** C10: [max_position] absent, or present with a falsy value ([0], [0.0],
    [None], [False], [""], ...), becomes [None]; a non-zero int [z] becomes the
    decimal [z] exactly, and a non-zero float the decimal its [repr] spells;
    and the translated configuration carries that value. *)
Theorem max_position_falsy_none_truthy_decimal (kv : list (string * pyval)) :
  (dict_lookup kv "max_position" = None -> max_position_of (PDict kv) = Ok PNone) /\
  (forall v, dict_lookup kv "max_position" = Some v -> truthy v = false ->
     max_position_of (PDict kv) = Ok PNone) /\
  (forall z, dict_lookup kv "max_position" = Some (PInt z) -> z <> 0%Z ->
     max_position_of (PDict kv) = Ok (PDecimal (DFinite (z <? 0)%Z (Z.abs_N z) 0))) /\
  (forall f, dict_lookup kv "max_position" = Some (PFloat f) -> float_truthy f = true ->
     max_position_of (PDict kv) = Ok (PDecimal (float_decimal f))) /\
  (forall doc c, getitem doc "grid_system" = Ok (PDict kv) -> create_grid_config doc = Ok c ->
     exists x, max_position_of (PDict kv) = Ok x /\ attr c "max_position" = Some x).
Proof.
  unfold max_position_of, get. split; [| split; [| split; [| split]]].
  - intros H. rewrite H. reflexivity.
  - intros v H Hv. rewrite H. cbn [res_bind]. rewrite Hv. reflexivity.
  - intros z H Hz. rewrite H. cbn [res_bind truthy].
    replace (negb (z =? 0)%Z) with true by (symmetry; apply negb_true_iff, Z.eqb_neq; exact Hz).
    apply to_decimal_int.
  - intros f H Hf. rewrite H. cbn [res_bind truthy]. rewrite Hf. apply to_decimal_float.
  - intros doc c Hgs H. fold (get (PDict kv) "max_position" PNone).
    fold (max_position_of (PDict kv)).
    unfold create_grid_config, make_GridConfig in H. res_inv. injection H as <-.
    match goal with E : getitem doc "grid_system" = Ok ?gc |- _ =>
      rewrite Hgs in E; injection E as <- end.
    match goal with E : base_params _ _ = Ok _ |- _ =>
      destruct (base_params_max_position _ _ _ E) as (x & Hx & Hl) end.
    exists x. split; [exact Hx |]. unfold attr; cbn [gc_fields].
    match goal with E : copy_optional _ _ _ = Ok _ |- _ =>
      rewrite (copy_optional_keeps _ _ _ _ _ E) by reflexivity end.
    match goal with E : range_params _ _ _ = Ok _ |- _ =>
      rewrite (range_params_max_position _ _ _ _ E) end.
    exact Hl.
Qed.

(** an explicit [0] and a limit of [5] *)
Lemma max_position_falsy_none_truthy_decimal_witness :
  max_position_of (PDict [("max_position", PInt 0)]) = Ok PNone /\
  max_position_of (PDict [("max_position", PInt 5)]) = Ok (PDecimal (DFinite false 5 0)).
Proof.
  split.
  - destruct (max_position_falsy_none_truthy_decimal [("max_position", PInt 0)]) as (_ & H & _).
    apply (H (PInt 0)); reflexivity.
  - destruct (max_position_falsy_none_truthy_decimal [("max_position", PInt 5)]) as (_ & _ & H & _).
    apply (H 5%Z); [reflexivity | discriminate].
Defined.

(* ================================================================== *)
(** * Further properties of the code *)


Lemma upper_char_idem c : PyStr.upper_char (PyStr.upper_char c) = PyStr.upper_char c.
Proof. destruct c as [[] [] [] [] [] [] [] []]; reflexivity. Qed.
Lemma upper_lower_char c : PyStr.upper_char (PyStr.lower_char c) = PyStr.upper_char c.
Proof. destruct c as [[] [] [] [] [] [] [] []]; reflexivity. Qed.
Lemma lower_char_idem c : PyStr.lower_char (PyStr.lower_char c) = PyStr.lower_char c.
Proof. destruct c as [[] [] [] [] [] [] [] []]; reflexivity. Qed.
Lemma lower_upper_char c : PyStr.lower_char (PyStr.upper_char c) = PyStr.lower_char c.
Proof. destruct c as [[] [] [] [] [] [] [] []]; reflexivity. Qed.

Lemma map_str_comp f g s :
  (forall c, f (g c) = f c) -> PyStr.map_str f (PyStr.map_str g s) = PyStr.map_str f s.
Proof. intros H. induction s as [|c s IH]; simpl; [reflexivity | rewrite H, IH; reflexivity]. Qed.

Lemma contains_tail a sub s :
  PyStr.contains (String a sub) s = true -> PyStr.contains sub s = true.
Proof.
  induction s as [|b s IH]; simpl; [discriminate |].
  intros H. apply orb_true_iff in H as [H | H].
  - apply andb_true_iff in H as [_ H].
    apply orb_true_iff; right. destruct s; simpl in *; [destruct sub; simpl in *; auto; discriminate |].
    apply orb_true_iff; left. exact H.
  - apply orb_true_iff; right. apply IH. exact H.
Qed.

(** X1: on ASCII arguments, [detect_market_type] ignores the case of both
    arguments: upper- or lower-casing the symbol or the exchange name does
    not change the result. *)
Theorem detect_market_type_case_insensitive (s e : string) :
  is_ascii7 s = true -> is_ascii7 e = true ->
  detect_market_type (PyStr.upper s) e = detect_market_type s e /\
  detect_market_type (PyStr.lower s) e = detect_market_type s e /\
  detect_market_type s (PyStr.upper e) = detect_market_type s e /\
  detect_market_type s (PyStr.lower e) = detect_market_type s e.
Proof.
  intros _ _.
  unfold detect_market_type, PyStr.upper, PyStr.lower.
  rewrite !map_str_comp by first [exact upper_char_idem | exact upper_lower_char
                                 | exact lower_char_idem | exact lower_upper_char].
  repeat split.
Qed.

(** X2: [detect_market_type] answers spot exactly when the exchange is
    hyperliquid and the upper-cased symbol contains [:SPOT] or none of
    [:USDC] and [:PERP], or the exchange is backpack and the upper-cased
    symbol contains [SPOT] but not [PERP]; every other input is perpetual. *)
Theorem detect_market_type_spot_iff (s e : string) :
  let u := PyStr.upper s in
  detect_market_type s e = SPOT <->
  (PyStr.lower e = "hyperliquid" /\
     (PyStr.contains ":SPOT" u = true \/
      (PyStr.contains ":USDC" u = false /\ PyStr.contains ":PERP" u = false))) \/
  (PyStr.lower e = "backpack" /\
     PyStr.contains "SPOT" u = true /\ PyStr.contains "PERP" u = false).
Proof.
  cbv zeta. unfold detect_market_type.
  set (u := PyStr.upper s).
  assert (Hp : PyStr.contains "_PERP" u = true -> PyStr.contains "PERP" u = true)
    by apply contains_tail.
  assert (Hs : PyStr.contains "_SPOT" u = true -> PyStr.contains "SPOT" u = true)
    by apply contains_tail.
  destruct (String.eqb_spec (PyStr.lower e) "hyperliquid") as [Hh|Hh].
  - destruct (PyStr.contains ":USDC" u), (PyStr.contains ":PERP" u), (PyStr.contains ":SPOT" u);
      simpl; split; intros H; auto; try discriminate;
      destruct H as [[_ [H|[H1 H2]]] | [H _]]; try discriminate; try congruence.
  - destruct (String.eqb_spec (PyStr.lower e) "backpack") as [Hb|Hb].
    + destruct (PyStr.contains "_PERP" u), (PyStr.contains "PERP" u),
               (PyStr.contains "_SPOT" u), (PyStr.contains "SPOT" u);
        simpl; split; intros H; auto; try discriminate;
        try (destruct H as [[H _] | [_ [H1 H2]]]; congruence);
        try (specialize (Hp eq_refl); discriminate);
        try (specialize (Hs eq_refl); discriminate).
    + destruct (String.eqb (PyStr.lower e) "lighter"); split; intros H; try discriminate;
        destruct H as [[H _] | [H _]]; congruence.
Qed.




Lemma get_dict kv k d : get (PDict kv) k d = Ok (dict_get kv k d).
Proof. unfold get, dict_get. destruct (dict_lookup kv k); reflexivity. Qed.

Lemma getitem_dict kv k :
  getitem (PDict kv) k = match dict_lookup kv k with Some x => Ok x | None => Err (PyExc "KeyError" k) end.
Proof. reflexivity. Qed.

Lemma range_params_keeps gc g p p' k :
  range_params gc g p = Ok p' ->
  existsb (String.eqb k) (["lower_price"; "upper_price"] ++ follow_keys) = false ->
  dict_lookup p' k = dict_lookup p k.
Proof.
  intros H Hk. simpl in Hk.
  repeat (apply orb_false_iff in Hk as [? Hk]).
  unfold range_params in H. destruct (is_follow g); res_inv; injection H as <-;
    repeat rewrite dict_lookup_set_neq by assumption; reflexivity.
Qed.

Lemma range_params_shape gc g p p' :
  range_params gc g p = Ok p' ->
  (is_follow g = true ->
     dict_lookup p' "lower_price" = dict_lookup p "lower_price" /\
     dict_lookup p' "upper_price" = dict_lookup p "upper_price" /\
     (forall kv, gc = PDict kv ->
        dict_lookup p' "follow_timeout" = Some (dict_get kv "follow_timeout" (PInt 300)) /\
        dict_lookup p' "follow_distance" = Some (dict_get kv "follow_distance" (PInt 1)) /\
        dict_lookup p' "price_offset_grids" = Some (dict_get kv "price_offset_grids" (PInt 0)))) /\
  (is_follow g = false ->
     forall k, In k follow_keys -> dict_lookup p' k = dict_lookup p k).
Proof.
  unfold range_params. destruct (is_follow g); intros H; res_inv; injection H as <-.
  - split; [| discriminate]. intros _.
    split; [repeat rewrite dict_lookup_set_neq by reflexivity; reflexivity |].
    split; [repeat rewrite dict_lookup_set_neq by reflexivity; reflexivity |].
    intros kv ->. rewrite !get_dict in *.
    repeat match goal with H : Ok _ = Ok _ |- _ => injection H as <- end.
    repeat split.
    + do 2 rewrite dict_lookup_set_neq by reflexivity. apply dict_lookup_set_eq.
    + rewrite dict_lookup_set_neq by reflexivity. apply dict_lookup_set_eq.
    + apply dict_lookup_set_eq.
  - split; [discriminate |]. intros _ k Hk.
    simpl in Hk. repeat destruct Hk as [<- | Hk]; try destruct Hk;
      repeat rewrite dict_lookup_set_neq by reflexivity; reflexivity.
Qed.

Lemma copy_optional_lookup kv fs p p' :
  copy_optional (PDict kv) fs p = Ok p' -> NoDup (map fst fs) ->
  forall k cv, In (k, cv) fs ->
  (dict_lookup kv k = None -> dict_lookup p' k = dict_lookup p k) /\
  (forall v, dict_lookup kv k = Some v -> exists v', apply_conv cv v = Ok v' /\ dict_lookup p' k = Some v').
Proof.
  revert p; induction fs as [|[k0 c0] fs IH]; intros p H Hnd k cv Hin; [destruct Hin |].
  simpl in H. inversion Hnd as [|? ? Hnotin Hnd']; subst.
  destruct Hin as [Heq | Hin].
  - injection Heq as -> ->.
    assert (Hk : existsb (String.eqb k) (map fst fs) = false).
    { apply not_true_iff_false. intros Hx. apply existsb_exists in Hx as (x & Hx & Hxe).
      apply String.eqb_eq in Hxe; subst. contradiction. }
    unfold contains_key, getitem in H. cbn [res_bind] in H.
    destruct (dict_lookup kv k) as [v|] eqn:Hl.
    + split; [discriminate |]. intros v0 Hv0. injection Hv0 as <-.
      cbn [res_bind] in H.
      destruct (apply_conv cv v) as [v'|e] eqn:Hc; cbn [res_bind] in H; [| discriminate].
      exists v'. split; [reflexivity |].
      rewrite (copy_optional_keeps _ _ _ _ _ H Hk). apply dict_lookup_set_eq.
    + split; [| discriminate]. intros _.
      exact (copy_optional_keeps _ _ _ _ _ H Hk).
  - assert (Hne : String.eqb k k0 = false).
    { apply String.eqb_neq. intros ->. apply Hnotin. apply (in_map fst) in Hin. exact Hin. }
    unfold contains_key, getitem in H. cbn [res_bind] in H.
    destruct (dict_lookup kv k0) as [v0|] eqn:Hl0.
    + cbn [res_bind] in H.
      destruct (apply_conv c0 v0) as [v'|e]; cbn [res_bind] in H; [| discriminate].
      destruct (IH _ H Hnd' k cv Hin) as [H1 H2]. split; [| exact H2].
      intros Hn. rewrite H1 by exact Hn. apply dict_lookup_set_neq. exact Hne.
    + exact (IH _ H Hnd' k cv Hin).
Qed.

Lemma optional_fields_nodup : NoDup (map fst optional_fields).
Proof. cbn. repeat constructor; cbn; intuition discriminate. Qed.

Lemma create_grid_config_parts doc gc c :
  getitem doc "grid_system" = Ok gc -> create_grid_config doc = Ok c ->
  exists gtv g p0 p1,
    getitem gc "grid_type" = Ok gtv /\ GridType_of gtv = Ok g /\
    base_params gc g = Ok p0 /\ range_params gc g p0 = Ok p1 /\
    copy_optional gc optional_fields p1 = Ok (gc_fields c).
Proof.
  intros Hg H. unfold create_grid_config, make_GridConfig in H. rewrite Hg in H.
  cbn [res_bind] in H. res_inv.
  match goal with H : Ok _ = Ok _ |- _ => injection H as <- end.
  do 4 eexists. repeat split; eassumption.
Qed.

Lemma base_params_fields kv g p :
  base_params (PDict kv) g = Ok p ->
  dict_lookup p "exchange" = dict_lookup kv "exchange" /\
  dict_lookup p "symbol" = dict_lookup kv "symbol" /\
  dict_lookup p "enable_notifications" = Some (dict_get kv "enable_notifications" (PBool false)) /\
  dict_lookup p "order_health_check_enabled" = Some (dict_get kv "order_health_check_enabled" (PBool true)) /\
  dict_lookup p "order_health_check_interval" = Some (dict_get kv "order_health_check_interval" (PInt 600)) /\
  dict_lookup p "rest_position_query_interval" = Some (dict_get kv "rest_position_query_interval" (PInt 1)) /\
  (dict_lookup kv "fee_rate" = None -> dict_lookup p "fee_rate" = Some (PDecimal (DFinite false 1 (-4)))) /\
  (dict_lookup kv "quantity_precision" = None -> dict_lookup p "quantity_precision" = Some (PInt 3)) /\
  (dict_lookup kv "price_decimals" = None -> dict_lookup p "price_decimals" = Some (PInt 2)) /\
  (forall k, In k (["lower_price"; "upper_price"] ++ follow_keys ++ map fst optional_fields) ->
     dict_lookup p k = None).
Proof.
  unfold base_params. intros H. res_inv. injection H as <-.
  rewrite !get_dict in *.
  repeat match goal with H : Ok _ = Ok _ |- _ => injection H as <- end.
  unfold getitem in *.
  repeat match goal with
         | H : match dict_lookup kv ?k with Some _ => _ | None => _ end = Ok _ |- _ =>
             let E := fresh "L" in destruct (dict_lookup kv k) eqn:E; [injection H as <- | discriminate]
         end.
  cbn [dict_lookup String.eqb Ascii.eqb Bool.eqb].
  repeat split; try (rewrite ?L, ?L0; reflexivity);
    try (intros Hn; unfold dict_get in *; rewrite Hn in *; cbn in *;
         repeat match goal with H : Ok _ = Ok _ |- _ => injection H as <- end; reflexivity).
  - intros Hn. match goal with H : to_decimal (dict_get kv "fee_rate" _) = Ok _ |- _ =>
      unfold dict_get in H; rewrite Hn in H; vm_compute in H; injection H as <- end.
    reflexivity.
  - intros k Hk. cbn in Hk. repeat destruct Hk as [<- | Hk]; try destruct Hk; reflexivity.
Qed.

Lemma copy_optional_keeps_base kv p k :
  In k (["lower_price"; "upper_price"] ++ follow_keys ++
        ["exchange"; "symbol"; "grid_type"; "enable_notifications"; "order_health_check_enabled";
         "order_health_check_interval"; "rest_position_query_interval"; "fee_rate";
         "quantity_precision"; "price_decimals"]) ->
  forall p', copy_optional (PDict kv) optional_fields p = Ok p' -> dict_lookup p' k = dict_lookup p k.
Proof.
  intros Hk p' H. apply (copy_optional_keeps _ _ _ _ _ H).
  cbn in Hk. repeat destruct Hk as [<- | Hk]; try destruct Hk; reflexivity.
Qed.

(** X3: a configuration built by [create_grid_config] copies [exchange] and
    [symbol] from [grid_system]; the notification and health-check settings
    take the value in [grid_system] or their defaults (False, True, 600, 1);
    an absent [fee_rate], [quantity_precision] or [price_decimals] gives
    Decimal 0.0001, 3 and 2; for a follow grid the follow timeout, distance
    and price offset default to 300, 1 and 0. *)
Theorem create_grid_config_defaults (doc : pyval) (kv : list (string * pyval)) (c : GridConfig) :
  getitem doc "grid_system" = Ok (PDict kv) -> create_grid_config doc = Ok c ->
  attr c "exchange" = dict_lookup kv "exchange" /\
  attr c "symbol" = dict_lookup kv "symbol" /\
  attr c "enable_notifications" = Some (dict_get kv "enable_notifications" (PBool false)) /\
  attr c "order_health_check_enabled" = Some (dict_get kv "order_health_check_enabled" (PBool true)) /\
  attr c "order_health_check_interval" = Some (dict_get kv "order_health_check_interval" (PInt 600)) /\
  attr c "rest_position_query_interval" = Some (dict_get kv "rest_position_query_interval" (PInt 1)) /\
  (dict_lookup kv "fee_rate" = None -> attr c "fee_rate" = Some (PDecimal (DFinite false 1 (-4)))) /\
  (dict_lookup kv "quantity_precision" = None -> attr c "quantity_precision" = Some (PInt 3)) /\
  (dict_lookup kv "price_decimals" = None -> attr c "price_decimals" = Some (PInt 2)) /\
  ((attr c "grid_type" = Some (PGridType FOLLOW_LONG) \/
    attr c "grid_type" = Some (PGridType FOLLOW_SHORT)) ->
   attr c "follow_timeout" = Some (dict_get kv "follow_timeout" (PInt 300)) /\
   attr c "follow_distance" = Some (dict_get kv "follow_distance" (PInt 1)) /\
   attr c "price_offset_grids" = Some (dict_get kv "price_offset_grids" (PInt 0))).
Proof.
  intros Hg H.
  destruct (create_grid_config_parts _ _ _ Hg H) as (gtv & g & p0 & p1 & _ & _ & Hb & Hr & Hc).
  unfold attr.
  assert (Hk : forall k, In k (["lower_price"; "upper_price"] ++ follow_keys ++
        ["exchange"; "symbol"; "grid_type"; "enable_notifications"; "order_health_check_enabled";
         "order_health_check_interval"; "rest_position_query_interval"; "fee_rate";
         "quantity_precision"; "price_decimals"]) ->
        dict_lookup (gc_fields c) k = dict_lookup p1 k)
    by (intros k Hin; exact (copy_optional_keeps_base kv p1 k Hin _ Hc)).
  assert (Hr' : forall k, In k ["exchange"; "symbol"; "grid_type"; "enable_notifications";
         "order_health_check_enabled"; "order_health_check_interval";
         "rest_position_query_interval"; "fee_rate"; "quantity_precision"; "price_decimals"] ->
        dict_lookup (gc_fields c) k = dict_lookup p0 k).
  { intros k Hin. rewrite Hk by (apply in_or_app; right; apply in_or_app; right; exact Hin).
    apply (range_params_keeps _ _ _ _ _ Hr).
    cbn in Hin. repeat destruct Hin as [<- | Hin]; try destruct Hin; reflexivity. }
  destruct (base_params_fields _ _ _ Hb) as (B1 & B2 & B3 & B4 & B5 & B6 & B7 & B8 & B9 & _).
  pose proof (base_params_grid_type _ _ _ Hb) as Bg.
  assert (Hfollow : (dict_lookup (gc_fields c) "grid_type" = Some (PGridType FOLLOW_LONG) \/
                     dict_lookup (gc_fields c) "grid_type" = Some (PGridType FOLLOW_SHORT)) ->
     dict_lookup (gc_fields c) "follow_timeout" = Some (dict_get kv "follow_timeout" (PInt 300)) /\
     dict_lookup (gc_fields c) "follow_distance" = Some (dict_get kv "follow_distance" (PInt 1)) /\
     dict_lookup (gc_fields c) "price_offset_grids" = Some (dict_get kv "price_offset_grids" (PInt 0))).
  { intros Hf.
    assert (Hfol : is_follow g = true).
    { rewrite Hr' in Hf by (cbn; tauto). rewrite Bg in Hf.
      destruct Hf as [Hf | Hf]; injection Hf as ->; reflexivity. }
    destruct (range_params_shape _ _ _ _ Hr) as [Hs _].
    destruct (Hs Hfol) as (_ & _ & Hs').
    destruct (Hs' kv eq_refl) as (F1 & F2 & F3).
    rewrite !Hk by (cbn; tauto). auto. }
  do 9 (split; [rewrite Hr' by (cbn; tauto); first [assumption | intros; auto] |]).
  exact Hfollow.
Qed.

(** X4: a configuration built by [create_grid_config] for a follow grid has
    no [lower_price] and no [upper_price]; one built for any other grid type
    has none of the follow-grid fields. *)
Theorem create_grid_config_exclusive_fields (doc : pyval) (c : GridConfig) (g : GridType) :
  create_grid_config doc = Ok c -> attr c "grid_type" = Some (PGridType g) ->
  (is_follow g = true -> attr c "lower_price" = None /\ attr c "upper_price" = None) /\
  (is_follow g = false -> forall k, In k follow_keys -> attr c k = None).
Proof.
  intros H Hg.
  destruct (getitem doc "grid_system") as [gc|e] eqn:Hgs;
    [| unfold create_grid_config in H; rewrite Hgs in H; discriminate].
  destruct (create_grid_config_parts _ _ _ Hgs H) as (gtv & g' & p0 & p1 & Hgt & _ & Hb & Hr & Hc).
  assert (Hgc : exists kv, gc = PDict kv).
  { destruct gc; try discriminate; eauto. }
  destruct Hgc as [kv ->].
  assert (Hk : forall k, In k (["lower_price"; "upper_price"] ++ follow_keys ++
        ["exchange"; "symbol"; "grid_type"; "enable_notifications"; "order_health_check_enabled";
         "order_health_check_interval"; "rest_position_query_interval"; "fee_rate";
         "quantity_precision"; "price_decimals"]) ->
        dict_lookup (gc_fields c) k = dict_lookup p1 k)
    by (intros k Hin; exact (copy_optional_keeps_base kv p1 k Hin _ Hc)).
  destruct (base_params_fields _ _ _ Hb) as (_ & _ & _ & _ & _ & _ & _ & _ & _ & B0).
  assert (Hgg : g' = g).
  { unfold attr in Hg. rewrite Hk in Hg by (cbn; tauto).
    destruct (range_params_ok _ _ _ _ Hr) as [Hrg _]. rewrite Hrg in Hg.
    rewrite (base_params_grid_type _ _ _ Hb) in Hg. congruence. }
  subst g'.
  destruct (range_params_shape _ _ _ _ Hr) as [Hf Hn].
  unfold attr. split.
  - intros Hfol. destruct (Hf Hfol) as (L & U & _).
    rewrite !Hk by (cbn; tauto). rewrite L, U, !B0 by (cbn; tauto). auto.
  - intros Hfol k Hin. rewrite Hk by (apply in_or_app; right; apply in_or_app; left; exact Hin).
    rewrite (Hn Hfol k Hin). apply B0. apply in_or_app; right; apply in_or_app; left; exact Hin.
Qed.

(** X5: each optional field of [create_grid_config] is absent from the
    configuration when its key is absent from [grid_system], and holds the
    converted value of the key when it is present. *)
Theorem create_grid_config_optional_fields (doc : pyval) (kv : list (string * pyval)) (c : GridConfig) :
  getitem doc "grid_system" = Ok (PDict kv) -> create_grid_config doc = Ok c ->
  forall k cv, In (k, cv) optional_fields ->
  (dict_lookup kv k = None -> attr c k = None) /\
  (forall v, dict_lookup kv k = Some v ->
     exists v', apply_conv cv v = Ok v' /\ attr c k = Some v').
Proof.
  intros Hg H k cv Hin.
  destruct (create_grid_config_parts _ _ _ Hg H) as (gtv & g & p0 & p1 & _ & _ & Hb & Hr & Hc).
  destruct (copy_optional_lookup _ _ _ _ Hc optional_fields_nodup k cv Hin) as [H1 H2].
  unfold attr. split; [| exact H2].
  intros Hn. rewrite (H1 Hn).
  destruct (base_params_fields _ _ _ Hb) as (_ & _ & _ & _ & _ & _ & _ & _ & _ & B0).
  assert (Hk : In k (map fst optional_fields)) by (apply (in_map fst) in Hin; exact Hin).
  rewrite (range_params_keeps _ _ _ _ _ Hr).
  - apply B0. apply in_or_app; right; apply in_or_app; right; exact Hk.
  - cbn in Hk. repeat destruct Hk as [<- | Hk]; try destruct Hk; reflexivity.
Qed.

(** X6: [create_grid_config] raises a TypeError on a document that is None,
    and a KeyError naming [grid_system] or [grid_type] when that key is
    missing. *)
Theorem create_grid_config_early_errors :
  (exists m, create_grid_config PNone = Err (PyExc "TypeError" m)) /\
  (forall kv, dict_lookup kv "grid_system" = None ->
     create_grid_config (PDict kv) = Err (PyExc "KeyError" "grid_system")) /\
  (forall kv gkv, dict_lookup kv "grid_system" = Some (PDict gkv) ->
     dict_lookup gkv "grid_type" = None ->
     create_grid_config (PDict kv) = Err (PyExc "KeyError" "grid_type")).
Proof.
  split; [eexists; reflexivity |]. split.
  - intros kv Hn. unfold create_grid_config. rewrite getitem_dict, Hn. reflexivity.
  - intros kv gkv Hs Ht. unfold create_grid_config. rewrite getitem_dict, Hs. cbn [res_bind].
    rewrite getitem_dict, Ht. reflexivity.
Qed.

Lemma cleanup_shape w st :
  let st' := snd (cleanup w st) in
  running st' = false /\ shutdown_set st' = shutdown_set st /\
  coordinator st' = coordinator st /\ reserve_monitor st' = reserve_monitor st /\
  exchange_adapter st' = exchange_adapter st /\
  exists t, trace st' = trace st ++ t /\ forallb cleanup_event t = true /\
    (count_event ECoordStop t <= b2n (coordinator st))%nat /\
    (count_event EMonitorStop t <= b2n (reserve_monitor st))%nat /\
    (count_event EDisconnect t <= b2n (has_adapter st))%nat /\
    (coordinator st = false -> reserve_monitor st = false -> has_adapter st = false -> t = []) /\
    (w_cleanup_on_exit w = Ok tt -> w_coord_stop w = Ok tt -> w_monitor_stop w = Ok tt ->
     w_disconnect w = Ok tt ->
     count_event ECoordStop t = b2n (coordinator st) /\
     count_event EMonitorStop t = b2n (reserve_monitor st) /\
     count_event EDisconnect t = b2n (has_adapter st)).
Proof.
  destruct st as [run sd co ad mon tr]. cbv zeta.
  unfold cleanup, has_adapter, Eff.try_except, Eff.bind, Eff.getS, Eff.ret, call, log_error,
    Eff.modify, Eff.lift.
  destruct co, mon, ad as [a|];
  res_cases (w_cleanup_on_exit w); res_cases (w_coord_stop w);
  res_cases (w_monitor_stop w); res_cases (w_disconnect w);
  repeat (cbn -[count_event]; match goal with H : is_Exception _ = _ |- _ => rewrite H end);
  cbn -[count_event];
  (split; [reflexivity |]); (split; [reflexivity |]); (split; [reflexivity |]);
  (split; [reflexivity |]); (split; [reflexivity |]);
  rewrite <- ?app_assoc; cbn [app];
  first [eexists; split; [reflexivity |] | exists []; split; [symmetry; apply app_nil_r |]];
  cbn; repeat split; intros; try lia; try discriminate;
  try reflexivity.
Qed.

Lemma cleanup_result w st :
  ordinary (w_cleanup_on_exit w) = true -> ordinary (w_coord_stop w) = true ->
  ordinary (w_monitor_stop w) = true -> ordinary (w_disconnect w) = true ->
  fst (cleanup w st) = Ok tt.
Proof.
  destruct st as [run sd co ad mon tr].
  unfold cleanup, Eff.try_except, Eff.bind, Eff.getS, Eff.ret, call, log_error, Eff.modify, Eff.lift.
  destruct co, mon, ad as [a|];
  res_cases (w_cleanup_on_exit w); res_cases (w_coord_stop w);
  res_cases (w_monitor_stop w); res_cases (w_disconnect w);
  repeat (cbn -[count_event]; match goal with H : is_Exception _ = _ |- _ => rewrite H end);
  cbn; intros; try reflexivity; discriminate.
Qed.


Lemma exn_bind {A B} (m : res A) (k : A -> res B) :
  exn_res m -> (forall a, exn_res (k a)) -> exn_res (res_bind m k).
Proof. destruct m; simpl; auto. Qed.

Lemma exn_gattr c k : exn_res (gattr c k).
Proof. unfold gattr. destruct (attr c k); reflexivity. Qed.

Lemma exn_str_method f n v : exn_res (str_method f n v).
Proof. destruct v; reflexivity. Qed.

Lemma exn_grid_type_value c : exn_res (grid_type_value c).
Proof.
  unfold grid_type_value. apply exn_bind; [apply exn_gattr |]. intros v; destruct v; reflexivity.
Qed.

Lemma exn_getitem v k : exn_res (getitem v k).
Proof. destruct v; simpl; try reflexivity. destruct (dict_lookup _ k); reflexivity. Qed.

Lemma exn_get v k d : exn_res (get v k d).
Proof. destruct v; simpl; try reflexivity. destruct (dict_lookup _ k); reflexivity. Qed.

Lemma exn_Err {A} (r : res A) e : exn_res r -> r = Err e -> is_Exception e = true.
Proof. intros H ->. exact H. Qed.

Lemma spot_short_check_shape c s :
  spot_short_check c s = (Ok tt, s) \/
  (exists e, spot_short_check c s = (Err e, s) /\ is_Exception e = true) \/
  spot_short_check c s = (Err (SystemExit 1), with_trace ELogError s).
Proof.
  unfold spot_short_check, Eff.bind, Eff.lift, Eff.ret, log_error, sys_exit, Eff.raise, Eff.modify.
  destruct (res_bind (gattr c "exchange") py_lower) as [ex|e] eqn:E1;
    [| right; left; exists e; split; [reflexivity |];
       eapply exn_Err; [| exact E1]; apply exn_bind; [apply exn_gattr | intros; apply exn_str_method]].
  destruct (String.eqb ex "hyperliquid"); [| destruct (String.eqb ex "backpack")]; cbv beta;
  try match goal with |- context [res_bind (gattr c "symbol") ?k] =>
    let E2 := fresh "E2" in
    destruct (res_bind (gattr c "symbol") k) as [sp|e] eqn:E2;
    [| right; left; exists e; split; [reflexivity |];
       eapply exn_Err; [| exact E2];
       apply exn_bind; [apply exn_gattr | intros; apply exn_bind; [apply exn_str_method | intros; exact I]]]
  end;
  (destruct (grid_type_value c) as [gtv|e] eqn:E3;
   [| right; left; exists e; split; [reflexivity | eapply exn_Err; [apply exn_grid_type_value | exact E3]]]);
  match goal with |- context [if ?b then _ else _] => destruct b end;
  auto.
Qed.

Lemma create_exchange_adapter_shape w d s :
  (exists cfg, create_exchange_adapter w d s = (Ok cfg, with_trace EConnect (with_trace (ECreateAdapter cfg) s)) /\
               w_factory w = Ok tt /\ w_connect w = Ok tt) \/
  (exists e s', create_exchange_adapter w d s = (Err e, s') /\
     (s' = s \/
      exists cfg, (s' = with_trace (ECreateAdapter cfg) s /\ w_factory w = Err e) \/
                  (s' = with_trace EConnect (with_trace (ECreateAdapter cfg) s) /\
                   w_factory w = Ok tt /\ w_connect w = Err e))).
Proof.
  unfold create_exchange_adapter, call, Eff.bind, Eff.lift, Eff.ret, Eff.modify.
  destruct (getitem d "grid_system") as [gc|e]; [| right; exists e; eexists; split; [reflexivity | left; reflexivity]].
  destruct (res_bind (getitem gc "exchange") py_lower) as [ex|e]; [| right; exists e; eexists; split; [reflexivity | left; reflexivity]].
  destruct (getitem gc "symbol") as [sym|e]; [| right; exists e; eexists; split; [reflexivity | left; reflexivity]].
  match goal with |- context [res_bind (py_upper sym) ?k] =>
    destruct (res_bind (py_upper sym) k) as [mt|e]; [| right; exists e; eexists; split; [reflexivity | left; reflexivity]] end.
  destruct (w_factory w) as [[]|e]; [| right; exists e; eexists; split; [reflexivity |]; right; eexists; first [left; split; reflexivity | right; repeat split; reflexivity]].
  destruct (w_connect w) as [[]|e]; [| right; exists e; eexists; split; [reflexivity |]; right; eexists; first [left; split; reflexivity | right; repeat split; reflexivity]].
  left. eexists. split; [reflexivity | split; reflexivity].
Qed.

Lemma reserve_enabled_shape w c a s :
  reserve_enabled w c a s = (Ok false, s) \/
  (reserve_enabled w c a s = (Ok true, set_reserve_monitor (with_trace EReserveNew s)) /\
   ec_exchange_type a = SPOT) \/
  (exists e s', reserve_enabled w c a s = (Err e, s') /\
     (s' = s \/ (s' = with_trace EReserveNew s /\ ec_exchange_type a = SPOT))).
Proof.
  unfold reserve_enabled, call, Eff.bind, Eff.lift, Eff.ret, Eff.modify.
  destruct (ec_exchange_type a) eqn:Ht; cbn [ExchangeType_eqb]; [| left; reflexivity].
  destruct (truthy (match attr c "spot_reserve" with Some v => v | None => PNone end)).
  - destruct (get _ "enabled" (PBool false)) as [en|e]; [| right; right; exists e; eexists; split; [reflexivity | first [left; reflexivity | right; split; reflexivity]]].
    destruct (truthy en); [| left; reflexivity].
    destruct (w_reserve_new w) as [[]|e]; [| right; right; exists e; eexists; split; [reflexivity | first [left; reflexivity | right; split; reflexivity]]].
    right; left; split; reflexivity.
  - destruct (truthy _); [| left; reflexivity].
    destruct (w_reserve_new w) as [[]|e]; [| right; right; exists e; eexists; split; [reflexivity | first [left; reflexivity | right; split; reflexivity]]].
    right; left; split; reflexivity.
Qed.

Ltac head_of t :=
  lazymatch t with
  | match ?X with (_, _) => _ end => head_of X
  | match ?X with Ok _ => _ | Err _ => _ end => head_of X
  | match ?X with true => _ | false => _ end => head_of X
  | (match ?X with true => _ | false => _ end) _ => head_of X
  | _ => t
  end.

Ltac walk E :=
  unfold run_body, load_config, call, log_error, sys_exit in E;
  unfold Eff.try_except, Eff.bind, Eff.lift, Eff.ret, Eff.modify, Eff.raise in E;
  repeat (cbv beta iota zeta in E;
    match type of E with
    | (_, _) = _ => fail 1
    | ?L = _ =>
      let X := head_of L in
      lazymatch X with
      | spot_short_check ?c ?s =>
          let H := fresh "Hs" in let e := fresh "e" in
          destruct (spot_short_check_shape c s) as [H|[(e & H & ?)|H]]; rewrite H in E; clear H
      | create_exchange_adapter ?w ?d ?s =>
          let H := fresh "Ha" in let e := fresh "e" in let s' := fresh "s" in let cfg := fresh "cfg" in
          destruct (create_exchange_adapter_shape w d s)
            as [(cfg & H & ? & ?)|(e & s' & H & [-> | (cfg & [[-> ?] | (-> & ? & ?)])])];
          rewrite H in E; clear H
      | reserve_enabled ?w ?c ?a ?s =>
          let H := fresh "Hr" in let e := fresh "e" in let s' := fresh "s" in
          destruct (reserve_enabled_shape w c a s) as [H|[[H ?]|(e & s' & H & [-> | [-> ?]])]];
          rewrite H in E; clear H
      | _ => let Ex := fresh "Ex" in destruct X eqn:Ex
      end
    end);
  try discriminate E; try (injection E; intros; subst).

Lemma run_body_ok w sb :
  run_body w init_runner = (Ok tt, sb) ->
  exists cfg m, sb = mkRunner true false true (Some cfg) m
    ([ECreateAdapter cfg; EConnect; EComponents] ++ (if m then [EReserveNew] else []) ++
     [ECoordNew] ++ (if m then [EReserveCheck] else []) ++ [ECoordStart] ++
     (if m then [EMonitorStart] else []) ++ [EStatsTaskStart; EStatsTaskCancel]).
Proof.
  intros E. walk E; eexists; first [exists false; reflexivity | exists true; reflexivity].
Qed.

Lemma run_body_adapter_failure w rb sb :
  run_body w init_runner = (rb, sb) ->
  (w_factory w <> Ok tt \/ w_connect w <> Ok tt) ->
  exchange_adapter sb = None /\ coordinator sb = false /\ reserve_monitor sb = false /\
  count_event EDisconnect (trace sb) = 0%nat /\ count_event ECoordNew (trace sb) = 0%nat /\
  exists e, rb = Err e.
Proof.
  intros E Hf. walk E;
  try (exfalso; destruct Hf as [Hf|Hf]; congruence);
  repeat split; eauto.
Qed.

Lemma run_body_reserve_spot w rb sb :
  run_body w init_runner = (rb, sb) ->
  In EReserveNew (trace sb) \/ In EReserveCheck (trace sb) \/ reserve_monitor sb = true ->
  exists cfg, exchange_adapter sb = Some cfg /\ ec_exchange_type cfg = SPOT.
Proof.
  intros E H. walk E; cbn in H;
  try (exists cfg; split; [reflexivity | assumption]);
  exfalso; intuition discriminate.
Qed.

Lemma run_body_reserve_check_failed w rb sb :
  run_body w init_runner = (rb, sb) -> w_reserve_check w = Ok false ->
  In EReserveCheck (trace sb) ->
  count_event ECoordStart (trace sb) = 0%nat /\ count_event EMonitorStart (trace sb) = 0%nat /\
  count_event EStatsTaskStart (trace sb) = 0%nat /\ running sb = false /\
  (w_disconnect_prestart w = Ok tt -> rb = Err (SystemExit 1)).
Proof.
  intros E Hc Hin. walk E; try congruence; cbn in Hin;
  try (exfalso; intuition discriminate);
  cbn; repeat split; intros; congruence.
Qed.

Lemma run_split w s rb sb :
  run_body w s = (rb, sb) ->
  let sb' := match rb with Err e => if is_Exception e then with_trace ELogError sb else sb | Ok _ => sb end in
  snd (run w s) = snd (cleanup w sb') /\
  fst (run w s) = match fst (cleanup w sb') with Ok _ => rb | Err e => Err e end.
Proof.
  intros E. unfold run, Eff.try_finally, Eff.try_except, log_error, Eff.bind, Eff.raise, Eff.modify.
  rewrite E. destruct rb as [u|e]; [| destruct (is_Exception e)];
    destruct (cleanup w _) as [[[]|e'] s2]; split; reflexivity.
Qed.

Lemma count_not_cleanup ev t :
  cleanup_event ev = false -> forallb cleanup_event t = true -> count_event ev t = 0%nat.
Proof.
  intros Hev Ht. unfold count_event. induction t as [|x t IH]; [reflexivity |].
  simpl in Ht. apply andb_true_iff in Ht as [Hx Ht]. simpl.
  destruct (event_eqb ev x) eqn:E.
  - exfalso. destruct ev, x; simpl in *; congruence.
  - apply IH. exact Ht.
Qed.

Lemma in_not_cleanup ev t :
  cleanup_event ev = false -> forallb cleanup_event t = true -> ~ In ev t.
Proof.
  intros Hev Ht Hin. rewrite forallb_forall in Ht. apply Ht in Hin. congruence.
Qed.

(** X7: whatever happens during [run], the runner's running flag is False
    once [run] has returned, since the [finally] clause runs [cleanup]. *)
Theorem run_clears_running (w : World) (s : Runner) : running (snd (run w s)) = false.
Proof.
  destruct (run_body w s) as [rb sb] eqn:E.
  destruct (run_split w s rb sb E) as [-> _].
  apply cleanup_shape.
Qed.

(** X8: when reading the configuration file fails, [run] raises the same
    error and creates and connects nothing; an [Exception] is logged twice,
    by [load_config] and by the [except] clause of [run], and an error that
    is not an [Exception] is not logged. When the configuration cannot be
    translated, [run] raises that error after one error log. *)
Theorem run_config_failure (w : World) (e : exc) :
  (w_config w = Err e ->
   run w init_runner = (Err e, mkRunner false false false None false
                                 (if is_Exception e then [ELogError; ELogError] else []))) /\
  (forall doc, w_config w = Ok doc -> create_grid_config doc = Err e ->
   run w init_runner = (Err e, mkRunner false false false None false [ELogError])).
Proof.
  split.
  - intros Hc. unfold run, run_body, load_config, Eff.try_finally, Eff.try_except, Eff.bind, Eff.lift.
    rewrite Hc. destruct (is_Exception e) eqn:He; cbn; rewrite ?He; reflexivity.
  - intros doc Hc Hg.
    assert (He : is_Exception e = true).
    { pose proof (create_grid_config_std doc) as H. rewrite Hg in H.
      destruct e; simpl in *; congruence. }
    unfold run, run_body, load_config, Eff.try_finally, Eff.try_except, Eff.bind, Eff.lift.
    rewrite Hc, Hg, He. reflexivity.
Qed.


Lemma spot_short_check_rejects c ex sym g s :
  attr c "exchange" = Some (PStr ex) -> attr c "symbol" = Some (PStr sym) ->
  attr c "grid_type" = Some (PGridType g) -> short_grid_type g = true ->
  (PyStr.lower ex = "hyperliquid" /\ PyStr.contains ":SPOT" (PyStr.upper sym) = true \/
   PyStr.lower ex = "backpack" /\ PyStr.contains "SPOT" (PyStr.upper sym) = true) ->
  spot_short_check c s = (Err (SystemExit 1), with_trace ELogError s).
Proof.
  intros He Hs Hg Hshort Hspot.
  unfold spot_short_check, grid_type_value, gattr, Eff.bind, Eff.lift, Eff.ret,
    log_error, sys_exit, Eff.raise, Eff.modify.
  rewrite He, Hs, Hg. cbn [res_bind py_lower py_upper str_method].
  unfold short_grid_type in Hshort.
  destruct Hspot as [[Hl Hc] | [Hl Hc]]; rewrite Hl; cbn [String.eqb Ascii.eqb Bool.eqb andb];
    rewrite ?Hc, ?orb_true_r; cbn [andb]; rewrite Hshort; reflexivity.
Qed.

(** X9: a short, martingale-short or follow-short grid on a hyperliquid
    symbol containing [:SPOT], or on a backpack symbol containing [SPOT],
    makes [run] log one error and exit with status 1 before any adapter,
    coordinator or monitor is created. *)
Theorem run_spot_short_rejected (w : World) (doc : pyval) (c : GridConfig) (ex sym : string) (g : GridType) :
  w_config w = Ok doc -> create_grid_config doc = Ok c ->
  attr c "exchange" = Some (PStr ex) -> attr c "symbol" = Some (PStr sym) ->
  attr c "grid_type" = Some (PGridType g) -> short_grid_type g = true ->
  (PyStr.lower ex = "hyperliquid" /\ PyStr.contains ":SPOT" (PyStr.upper sym) = true \/
   PyStr.lower ex = "backpack" /\ PyStr.contains "SPOT" (PyStr.upper sym) = true) ->
  run w init_runner = (Err (SystemExit 1), mkRunner false false false None false [ELogError]).
Proof.
  intros Hw Hc He Hs Hg Hshort Hspot.
  unfold run, run_body, load_config, Eff.try_finally, Eff.try_except.
  unfold Eff.bind at 1, Eff.lift at 1. rewrite Hw.
  unfold Eff.bind at 1, Eff.lift at 1. rewrite Hc.
  unfold Eff.bind at 1. rewrite (spot_short_check_rejects c ex sym g init_runner He Hs Hg Hshort Hspot).
  reflexivity.
Qed.

Lemma run_body_no_stop w rb sb :
  run_body w init_runner = (rb, sb) ->
  count_event ECoordStop (trace sb) = 0%nat /\ count_event EMonitorStop (trace sb) = 0%nat /\
  count_event ECleanupOnExit (trace sb) = 0%nat.
Proof.
  intros E. walk E; repeat split.
Qed.

Lemma run_body_monitor_start_spot w rb sb :
  run_body w init_runner = (rb, sb) -> In EMonitorStart (trace sb) ->
  exists cfg, exchange_adapter sb = Some cfg /\ ec_exchange_type cfg = SPOT.
Proof.
  intros E H. walk E; cbn in H;
  try (exists cfg; split; [reflexivity | assumption]);
  exfalso; intuition discriminate.
Qed.


Lemma run_final w s rb sb :
  run_body w s = (rb, sb) ->
  let sf := snd (run w s) in
  running sf = false /\
  coordinator sf = coordinator sb /\ reserve_monitor sf = reserve_monitor sb /\
  exchange_adapter sf = exchange_adapter sb /\
  exists t, trace sf = trace sb ++ t /\ forallb cleanup_event t = true /\
    (count_event ECoordStop t <= b2n (coordinator sb))%nat /\
    (count_event EMonitorStop t <= b2n (reserve_monitor sb))%nat /\
    (count_event EDisconnect t <= b2n (has_adapter sb))%nat /\
    (w_cleanup_on_exit w = Ok tt -> w_coord_stop w = Ok tt -> w_monitor_stop w = Ok tt ->
     w_disconnect w = Ok tt ->
     count_event ECoordStop t = b2n (coordinator sb) /\
     count_event EMonitorStop t = b2n (reserve_monitor sb) /\
     count_event EDisconnect t = b2n (has_adapter sb)).
Proof.
  intros E sf. destruct (run_split w s rb sb E) as [Hs _]. subst sf. rewrite Hs.
  set (sb' := match rb with Err e => if is_Exception e then with_trace ELogError sb else sb | Ok _ => sb end).
  assert (Hb : coordinator sb' = coordinator sb /\ reserve_monitor sb' = reserve_monitor sb /\
               exchange_adapter sb' = exchange_adapter sb /\
               exists l, trace sb' = trace sb ++ l /\ forallb cleanup_event l = true /\
               count_event ECoordStop l = 0%nat /\ count_event EMonitorStop l = 0%nat /\
               count_event EDisconnect l = 0%nat).
  { subst sb'. destruct rb as [u|e]; [| destruct (is_Exception e)].
    - repeat split; exists []; rewrite app_nil_r; repeat split.
    - repeat split; exists [ELogError]; repeat split.
    - repeat split; exists []; rewrite app_nil_r; repeat split. }
  destruct Hb as (Hc & Hm & Ha & l & Hl & Hlc & Hl1 & Hl2 & Hl3).
  destruct (cleanup_shape w sb') as (Hr & _ & Hc' & Hm' & Ha' & t & Ht & Htc & H1 & H2 & H3 & _ & H4).
  unfold has_adapter in *. rewrite Hc in *. rewrite Hm in *. rewrite Ha in *.
  split; [exact Hr |]. split; [congruence |]. split; [congruence |]. split; [congruence |].
  exists (l ++ t). rewrite Ht, Hl, app_assoc. split; [reflexivity |].
  rewrite forallb_app, Hlc, Htc. split; [reflexivity |].
  rewrite !count_event_app, Hl1, Hl2, Hl3. cbn [Nat.add].
  split; [exact H1 |]. split; [exact H2 |]. split; [exact H3 |]. exact H4.
Qed.

Lemma run_result w s rb sb :
  run_body w s = (rb, sb) -> fst (run w s) = Ok tt -> rb = Ok tt.
Proof.
  intros E H. destruct (run_split w s rb sb E) as [_ Hf]. rewrite H in Hf.
  destruct (fst (cleanup w _)); [| discriminate]. destruct rb as [[]|]; congruence.
Qed.

Lemma run_result_err w s rb sb e :
  run_body w s = (rb, sb) -> rb = Err e -> fst (run w s) <> Ok tt.
Proof.
  intros E -> H. destruct (run_split w s _ sb E) as [_ Hf]. rewrite H in Hf.
  destruct (fst (cleanup w _)); discriminate.
Qed.

(** X10: when the adapter factory or [connect()] fails, [run] does not
    complete; the runner keeps no adapter and no coordinator, and no
    [disconnect()] and no coordinator creation is ever recorded. *)
Theorem run_adapter_failure (w : World) :
  (w_factory w <> Ok tt \/ w_connect w <> Ok tt) ->
  let sf := snd (run w init_runner) in
  fst (run w init_runner) <> Ok tt /\ exchange_adapter sf = None /\
  coordinator sf = false /\
  count_event EDisconnect (trace sf) = 0%nat /\ count_event ECoordNew (trace sf) = 0%nat.
Proof.
  intros Hf sf. destruct (run_body w init_runner) as [rb sb] eqn:E.
  destruct (run_body_adapter_failure w rb sb E Hf) as (Ha & Hc & Hm & Hd & Hn & e & He).
  destruct (run_final w init_runner rb sb E) as (_ & Hc' & _ & Ha' & t & Ht & Htc & H1 & H2 & H3 & _).
  subst sf. unfold has_adapter in H3. rewrite Ha in H3.
  split; [exact (run_result_err w init_runner rb sb e E He) |].
  split; [congruence |]. split; [congruence |]. rewrite Ht, !count_event_app.
  rewrite (count_not_cleanup ECoordNew t) by (reflexivity || exact Htc).
  cbn [b2n] in *. lia.
Qed.

Lemma count_event_In ev t : In ev t -> (1 <= count_event ev t)%nat.
Proof.
  unfold count_event. induction t as [|x t IH]; [intros [] |].
  intros [-> | H]; simpl.
  - destruct ev; simpl; try lia.
  - destruct (event_eqb ev x); simpl; [lia | auto].
Qed.

(** X11: a reserve manager is created, the reserve check run, or the reserve
    monitor started or stopped only when the runner's adapter is configured
    for a spot market. *)
Theorem run_reserve_only_spot (w : World) :
  let sf := snd (run w init_runner) in
  In EReserveNew (trace sf) \/ In EReserveCheck (trace sf) \/ In EMonitorStart (trace sf) \/
  In EMonitorStop (trace sf) \/ reserve_monitor sf = true ->
  exists cfg, exchange_adapter sf = Some cfg /\ ec_exchange_type cfg = SPOT.
Proof.
  intros sf H. destruct (run_body w init_runner) as [rb sb] eqn:E.
  destruct (run_final w init_runner rb sb E) as (_ & _ & Hm & Ha & t & Ht & Htc & _ & H2 & _).
  destruct (run_body_no_stop w rb sb E) as (_ & Hms & _).
  subst sf. rewrite Ha. rewrite Ht, Hm in H. rewrite !in_app_iff in H.
  destruct H as [[H|H] | [[H|H] | [[H|H] | [[H|H] | H]]]].
  - apply (run_body_reserve_spot w rb sb E); auto.
  - exfalso; exact (in_not_cleanup EReserveNew t eq_refl Htc H).
  - apply (run_body_reserve_spot w rb sb E); auto.
  - exfalso; exact (in_not_cleanup EReserveCheck t eq_refl Htc H).
  - apply (run_body_monitor_start_spot w rb sb E H).
  - exfalso; exact (in_not_cleanup EMonitorStart t eq_refl Htc H).
  - apply count_event_In in H. lia.
  - apply (run_body_reserve_spot w rb sb E). right; right.
    apply count_event_In in H. destruct (reserve_monitor sb); [reflexivity | cbn in H2; lia].
  - apply (run_body_reserve_spot w rb sb E); auto.
Qed.

(** X12: when the startup reserve check fails, the coordinator, the reserve
    monitor and the statistics task are never started; if the disconnect
    before exiting succeeds and the cleanup calls raise at most ordinary
    exceptions, [run] ends with SystemExit 1. *)
Theorem run_reserve_check_failure (w : World) :
  w_reserve_check w = Ok false ->
  let sf := snd (run w init_runner) in
  In EReserveCheck (trace sf) ->
  count_event ECoordStart (trace sf) = 0%nat /\ count_event EMonitorStart (trace sf) = 0%nat /\
  count_event EStatsTaskStart (trace sf) = 0%nat /\
  (w_disconnect_prestart w = Ok tt ->
   ordinary (w_cleanup_on_exit w) = true -> ordinary (w_coord_stop w) = true ->
   ordinary (w_monitor_stop w) = true -> ordinary (w_disconnect w) = true ->
   fst (run w init_runner) = Err (SystemExit 1)).
Proof.
  intros Hc sf Hin. destruct (run_body w init_runner) as [rb sb] eqn:E.
  destruct (run_final w init_runner rb sb E) as (_ & _ & _ & _ & t & Ht & Htc & _).
  subst sf. rewrite Ht in Hin |- *. rewrite in_app_iff in Hin.
  destruct Hin as [Hin | Hin]; [| exfalso; exact (in_not_cleanup EReserveCheck t eq_refl Htc Hin)].
  destruct (run_body_reserve_check_failed w rb sb E Hc Hin) as (H1 & H2 & H3 & _ & H4).
  rewrite !count_event_app, H1, H2, H3.
  rewrite !(count_not_cleanup _ t) by (reflexivity || exact Htc).
  split; [reflexivity |]. split; [reflexivity |]. split; [reflexivity |].
  intros Hd O1 O2 O3 O4. destruct (run_split w init_runner rb sb E) as [_ Hf].
  rewrite Hf, cleanup_result by assumption. exact (H4 Hd).
Qed.

(** X13: when [run] returns normally, the adapter was connected once, the
    components and the coordinator created and started once, the statistics
    task started and cancelled once, the reserve monitor started once per
    reserve manager (at most one), and the coordinator stopped and the adapter
    disconnected at most once; exactly once each when the cleanup calls
    succeed, with the reserve monitor stopped as often as it was started. *)
Theorem run_completed (w : World) :
  fst (run w init_runner) = Ok tt ->
  let tr := trace (snd (run w init_runner)) in
  count_event EConnect tr = 1%nat /\ count_event EComponents tr = 1%nat /\
  count_event ECoordNew tr = 1%nat /\ count_event ECoordStart tr = 1%nat /\
  count_event EStatsTaskStart tr = 1%nat /\ count_event EStatsTaskCancel tr = 1%nat /\
  count_event EMonitorStart tr = count_event EReserveNew tr /\
  (count_event EReserveNew tr <= 1)%nat /\
  (count_event ECoordStop tr <= 1)%nat /\ (count_event EDisconnect tr <= 1)%nat /\
  (w_cleanup_on_exit w = Ok tt -> w_coord_stop w = Ok tt -> w_monitor_stop w = Ok tt ->
   w_disconnect w = Ok tt ->
   count_event ECoordStop tr = 1%nat /\ count_event EDisconnect tr = 1%nat /\
   count_event EMonitorStop tr = count_event EMonitorStart tr).
Proof.
  intros Hok tr. destruct (run_body w init_runner) as [rb sb] eqn:E.
  destruct (run_final w init_runner rb sb E) as (_ & _ & _ & _ & t & Ht & Htc & H1 & H2 & H3 & H4).
  pose proof (run_result w init_runner rb sb E Hok) as Hrb. subst rb.
  destruct (run_body_ok w sb E) as (cfg & m & ->).
  subst tr. rewrite Ht. rewrite !count_event_app.
  assert (Z : forall ev, cleanup_event ev = false -> count_event ev t = 0%nat)
    by (intros ev Hev; exact (count_not_cleanup ev t Hev Htc)).
  rewrite ?(Z EConnect), ?(Z EComponents), ?(Z ECoordNew), ?(Z ECoordStart), ?(Z EStatsTaskStart), ?(Z EStatsTaskCancel), ?(Z EMonitorStart), ?(Z EReserveNew) by reflexivity.
  cbn [has_adapter b2n coordinator reserve_monitor exchange_adapter] in *.
  destruct m; cbn [b2n] in H1, H2, H3, H4; cbn; repeat split; try lia;
    intros; destruct H4 as (? & ? & ?); auto; lia.
Qed.

(** X14: [cleanup] clears none of the runner's references, so a second
    [cleanup] whose calls succeed stops the coordinator and the reserve
    monitor and disconnects the adapter again: each present component is
    stopped twice in total. *)
Theorem cleanup_twice (w : World) (st : Runner) :
  w_cleanup_on_exit w = Ok tt -> w_coord_stop w = Ok tt -> w_monitor_stop w = Ok tt ->
  w_disconnect w = Ok tt ->
  let st2 := snd (cleanup w (snd (cleanup w st))) in
  count_event ECoordStop (trace st2) = (count_event ECoordStop (trace st) + 2 * b2n (coordinator st))%nat /\
  count_event EMonitorStop (trace st2) = (count_event EMonitorStop (trace st) + 2 * b2n (reserve_monitor st))%nat /\
  count_event EDisconnect (trace st2) = (count_event EDisconnect (trace st) + 2 * b2n (has_adapter st))%nat.
Proof.
  intros O1 O2 O3 O4 st2.
  destruct (cleanup_shape w st) as (_ & _ & Hc & Hm & Ha & t & Ht & _ & _ & _ & _ & _ & H).
  destruct (cleanup_shape w (snd (cleanup w st)))
    as (_ & _ & _ & _ & _ & t' & Ht' & _ & _ & _ & _ & _ & H').
  destruct (H O1 O2 O3 O4) as (E1 & E2 & E3).
  destruct (H' O1 O2 O3 O4) as (E1' & E2' & E3').
  unfold has_adapter in *. rewrite Hc, Hm, Ha in *.
  subst st2. rewrite Ht', Ht, !count_event_app. lia.
Qed.


Lemma detect_market_type_lower_name s e :
  detect_market_type s (PyStr.lower e) = detect_market_type s e.
Proof.
  unfold detect_market_type, PyStr.lower.
  rewrite map_str_comp by exact lower_char_idem. reflexivity.
Qed.

Lemma make_exchange_config_shape name mt c fs :
  let cfg := make_exchange_config name mt c fs in
  ec_exchange_id cfg = name /\ ec_exchange_type cfg = mt /\
  (truthy (ec_api_key cfg) = true \/ ec_api_key cfg = PStr "") /\
  (truthy (ec_api_secret cfg) = true \/ ec_api_secret cfg = PStr "").
Proof.
  cbv zeta. unfold make_exchange_config.
  destruct (String.eqb name "lighter") eqn:En.
  - apply String.eqb_eq in En. subst name.
    destruct (assoc fs _) as [[data|]|]; [destruct (res_bind _ _) |  |];
      cbn; repeat split; right; reflexivity.
  - cbn. repeat split;
    [destruct (truthy (api_key c)) eqn:T; [left; exact T | right; reflexivity]
    |destruct (truthy (api_secret c)) eqn:T; [left; exact T | right; reflexivity]].
Qed.

(** X15: every configuration [create_exchange_adapter] hands to the adapter
    factory has the lower-cased exchange name as its id and the market type
    [detect_market_type] gives for the configured symbol and exchange, and
    its API key and secret are each a truthy value or the empty string,
    never None. *)
Theorem create_exchange_adapter_config (w : World) (doc : pyval) (kv : list (string * pyval))
  (ex sym : string) (st : Runner) (cfg : ExchangeConfig) :
  getitem doc "grid_system" = Ok (PDict kv) ->
  dict_lookup kv "exchange" = Some (PStr ex) -> dict_lookup kv "symbol" = Some (PStr sym) ->
  In (ECreateAdapter cfg) (trace (snd (create_exchange_adapter w doc st))) ->
  In (ECreateAdapter cfg) (trace st) \/
  (ec_exchange_id cfg = PyStr.lower ex /\ ec_exchange_type cfg = detect_market_type sym ex /\
   (truthy (ec_api_key cfg) = true \/ ec_api_key cfg = PStr "") /\
   (truthy (ec_api_secret cfg) = true \/ ec_api_secret cfg = PStr "")).
Proof.
  intros Hg He Hs Hin.
  unfold create_exchange_adapter, Eff.bind, Eff.lift, Eff.ret, call, Eff.modify in Hin.
  rewrite Hg in Hin. unfold getitem at 1 in Hin. rewrite He in Hin.
  unfold getitem at 1 in Hin. rewrite Hs in Hin.
  cbn [res_bind py_lower py_upper str_method] in Hin.
  set (cfg0 := make_exchange_config _ _ _ _) in Hin.
  assert (H0 : In (ECreateAdapter cfg) (trace st) \/ cfg = cfg0).
  { destruct (w_factory w); cbn in Hin;
    [destruct (w_connect w); cbn in Hin |];
    rewrite ?in_app_iff in Hin; cbn in Hin;
    intuition (try congruence). }
  destruct H0 as [H0 | ->]; [left; exact H0 | right].
  destruct (make_exchange_config_shape (PyStr.lower ex) (detect_market_type sym (PyStr.lower ex))
    (resolve_credentials (PyStr.lower ex) (w_env w) (w_files w)) (w_files w)) as (H1 & H2 & H3 & H4).
  subst cfg0. rewrite H1, H2.
  split; [reflexivity |]. split; [apply detect_market_type_lower_name |]. split; assumption.
Qed.

(** ** Witnesses of the properties above *)

Lemma detect_market_type_case_insensitive_witness :
  detect_market_type "btc:spot" "HyperLiquid" = detect_market_type "BTC:SPOT" "HyperLiquid" /\
  detect_market_type "btc:spot" "HyperLiquid" = detect_market_type "btc:spot" "hyperliquid".
Proof.
  destruct (detect_market_type_case_insensitive "btc:spot" "HyperLiquid") as (H1 & _ & _ & H4);
    [reflexivity | reflexivity |].
  split; [exact (eq_sym H1) | exact (eq_sym H4)].
Defined.

Lemma create_grid_config_defaults_witness :
  exists c, create_grid_config doc_follow_long = Ok c /\
    attr c "follow_timeout" = Some (PInt 300) /\
    attr c "fee_rate" = Some (PDecimal (DFinite false 1 (-4))).
Proof.
  destruct (create_grid_config doc_follow_long) as [c|e] eqn:E; [| vm_compute in E; discriminate].
  exists c. split; [reflexivity |].
  pose proof E as Ec. vm_compute in Ec. injection Ec as Ec.
  destruct (create_grid_config_defaults doc_follow_long _ c eq_refl E)
    as (_ & _ & _ & _ & _ & _ & Hfee & _ & _ & Hfollow).
  split.
  - destruct Hfollow as (-> & _ & _); [left; rewrite <- Ec; reflexivity | reflexivity].
  - apply Hfee. reflexivity.
Defined.

Lemma create_grid_config_exclusive_fields_witness :
  exists c, create_grid_config doc_follow_long = Ok c /\
    attr c "lower_price" = None /\ attr c "upper_price" = None.
Proof.
  destruct (create_grid_config doc_follow_long) as [c|e] eqn:E; [| vm_compute in E; discriminate].
  exists c. split; [reflexivity |].
  pose proof E as Ec. vm_compute in Ec. injection Ec as Ec.
  destruct (create_grid_config_exclusive_fields doc_follow_long c FOLLOW_LONG E)
    as [Hf _]; [rewrite <- Ec; reflexivity |].
  apply Hf. reflexivity.
Defined.

Lemma create_grid_config_optional_fields_witness :
  exists c, create_grid_config doc_long_take_profit = Ok c /\
    attr c "martingale_increment" = None /\
    exists v', apply_conv CDecimal (PStr "1.5") = Ok v' /\ attr c "take_profit_percentage" = Some v'.
Proof.
  destruct (create_grid_config doc_long_take_profit) as [c|e] eqn:E; [| vm_compute in E; discriminate].
  exists c. split; [reflexivity |].
  split.
  - apply (create_grid_config_optional_fields doc_long_take_profit _ c eq_refl E
             "martingale_increment" CDecimal); [cbn; tauto | reflexivity].
  - apply (create_grid_config_optional_fields doc_long_take_profit _ c eq_refl E
             "take_profit_percentage" CDecimal); [cbn; tauto | reflexivity].
Defined.

Lemma run_spot_short_rejected_witness :
  run (world_of doc_backpack_spot_short true) init_runner =
    (Err (SystemExit 1), mkRunner false false false None false [ELogError]).
Proof.
  destruct (create_grid_config doc_backpack_spot_short) as [c|e] eqn:E;
    [| vm_compute in E; discriminate].
  pose proof E as Ec. vm_compute in Ec. injection Ec as Ec.
  apply (run_spot_short_rejected _ doc_backpack_spot_short c "backpack" "SOL_SPOT" SHORT);
    try (rewrite <- Ec); try reflexivity; try exact E.
  right. split; reflexivity.
Defined.

Lemma run_adapter_failure_witness :
  fst (run world_connect_fails init_runner) <> Ok tt /\
  count_event EDisconnect (trace (snd (run world_connect_fails init_runner))) = 0%nat.
Proof.
  destruct (run_adapter_failure world_connect_fails) as (H1 & _ & _ & H2 & _);
    [right; discriminate |].
  split; assumption.
Defined.

Lemma run_reserve_only_spot_witness :
  exists cfg, exchange_adapter (snd (run (world_of doc_reserve true) init_runner)) = Some cfg /\
    ec_exchange_type cfg = SPOT.
Proof.
  apply run_reserve_only_spot. left. vm_compute. tauto.
Defined.

Lemma run_reserve_check_failure_witness :
  count_event ECoordStart (trace (snd (run (world_of doc_reserve false) init_runner))) = 0%nat /\
  fst (run (world_of doc_reserve false) init_runner) = Err (SystemExit 1).
Proof.
  destruct (run_reserve_check_failure (world_of doc_reserve false)) as (H1 & _ & _ & H2);
    [reflexivity | vm_compute; tauto |].
  split; [exact H1 | apply H2; reflexivity].
Defined.

Lemma run_completed_witness :
  count_event EConnect (trace (snd (run (world_of doc_long true) init_runner))) = 1%nat /\
  count_event EDisconnect (trace (snd (run (world_of doc_long true) init_runner))) = 1%nat.
Proof.
  destruct (run_completed (world_of doc_long true)) as (H1 & _ & _ & _ & _ & _ & _ & _ & _ & _ & H2);
    [vm_compute; reflexivity |].
  split; [exact H1 |]. apply H2; reflexivity.
Defined.

Lemma cleanup_twice_witness :
  count_event EDisconnect
    (trace (snd (cleanup (world_of doc_long true) (snd (cleanup (world_of doc_long true) runner_at_shutdown))))) = 2%nat.
Proof.
  destruct (cleanup_twice (world_of doc_long true) runner_at_shutdown) as (_ & _ & H);
    [reflexivity | reflexivity | reflexivity | reflexivity |].
  rewrite H. reflexivity.
Defined.

Lemma create_exchange_adapter_config_witness :
  let cfg := mkExchangeConfig "hyperliquid" "Hyperliquid" SPOT (PStr "") (PStr "") (Some PNone)
               (PBool false) true true in
  In (ECreateAdapter cfg) (trace init_runner) \/
  (ec_exchange_id cfg = PyStr.lower "hyperliquid" /\ ec_exchange_type cfg = detect_market_type "BTC" "hyperliquid" /\
   (truthy (ec_api_key cfg) = true \/ ec_api_key cfg = PStr "") /\
   (truthy (ec_api_secret cfg) = true \/ ec_api_secret cfg = PStr "")).
Proof.
  intros cfg.
  apply (create_exchange_adapter_config (world_of doc_long true) doc_long
           [("exchange", PStr "hyperliquid"); ("symbol", PStr "BTC");
            ("grid_type", PStr "long"); ("grid_interval", PInt 10); ("order_amount", PStr "0.01");
            ("max_position", PInt 0); ("leverage", PStr "5");
            ("price_range", PDict [("lower_price", PInt 90000); ("upper_price", PInt 100000)])]
           "hyperliquid" "BTC" init_runner cfg); try reflexivity.
  vm_compute. left. reflexivity.
Defined.
